(** * Block.tsx: the recursive report-element renderer

    A shallow embedding of [frontend/src/components/core/Block/Block.tsx]
    and the properties of its methods [getElements], [isElementStale],
    [renderBlock], [renderElementWithErrorBoundary], [renderElement] and
    [renderElements].

    Immutable.js maps with a fixed set of keys are records, the proto
    sub-message of an element is a finite map, JavaScript exceptions are
    abrupt completions of a small state-and-exception monad whose state
    holds what the methods can reach: [this.props] and the static flag
    [FullScreenWrapper.isFullScreen]. *)

From stdpp Require Import base option list strings gmap.
From Stdlib Require Import ZArith Lia.

Set Warnings "-register-all".

Local Open Scope string_scope.
Local Open Scope Z_scope.

(** ** Data model *)

(** A scalar stored in a proto sub-message. *)
Inductive JSValue :=
| JSString (s : string)
| JSNumber (z : Z)
| JSBool (b : bool).

(** [ElementDimensionSpec] of [autogen/proto]: two unsigned numbers. *)
Record ElementDimensionSpec := mkElementDimensionSpec {
  spec_width : Z;
  spec_height : Z
}.

(** [ForwardMsgMetadata]: only [elementDimensionSpec] is read here, and it
    may be absent. *)
Record ForwardMsgMetadata := mkForwardMsgMetadata {
  elementDimensionSpec : option ElementDimensionSpec
}.

(** [SimpleElement]: an Immutable map carrying a ["type"] tag ([None]
    when the key is not set) and the sub-message the tag selects. *)
Record SimpleElement := mkSimpleElement {
  type : option string;
  payload : gmap string JSValue
}.

(** What [reportElement.get("element")] can hold: an Immutable [List] of
    report elements (a block) or an Immutable [Map] (a simple element). *)
Inductive Element (R : Type) :=
| BlockPayload (l : list R)
| SimplePayload (e : SimpleElement).
Arguments BlockPayload {R} l.
Arguments SimplePayload {R} e.

(** [ReportElement]: the keys ["element"], ["reportId"] and ["metadata"].
    The values are untyped in the source ([ImmutableMap<string, any>]), so
    the element and the metadata may be missing ([null] or [undefined]). *)
Inductive ReportElement := mkReportElement {
  element : option (Element ReportElement);
  reportId : string;
  metadata : option ForwardMsgMetadata
}.

Abbreviation BlockElement := (list ReportElement).

(** Modelled from the spec: the run-state enum of [lib/ReportRunState],
    which is not part of the sources. [Block.tsx] names two of its members;
    every other member is [OTHER_STATE] with its name. *)
Inductive ReportRunState :=
| RUNNING
| RERUN_REQUESTED
| OTHER_STATE (name : string).

(** Modelled from the spec: the widget-state manager of
    [lib/WidgetStateManager] is an external collaborator; the renderer only
    hands the object on, so it is a reference. *)
Inductive WidgetStateManager :=
| WidgetStateManagerRef (ref : nat).

Record Props := mkProps {
  elements : BlockElement;
  props_reportId : string;
  reportRunState : ReportRunState;
  showStaleElementIndicator : bool;
  widgetMgr : WidgetStateManager;
  widgetsDisabled : bool
}.

(** ** Decidable equality of the data *)

Global Instance JSValue_eq_dec : EqDecision JSValue.
Proof. solve_decision. Defined.

Global Instance ElementDimensionSpec_eq_dec : EqDecision ElementDimensionSpec.
Proof. solve_decision. Defined.

Global Instance ForwardMsgMetadata_eq_dec : EqDecision ForwardMsgMetadata.
Proof. solve_decision. Defined.

Global Instance ReportRunState_eq_dec : EqDecision ReportRunState.
Proof. solve_decision. Defined.

Global Instance WidgetStateManager_eq_dec : EqDecision WidgetStateManager.
Proof. solve_decision. Defined.

(** ** The rendered output *)

(** The leaf components imported by [Block.tsx]. *)
Inductive Component :=
| Alert | Chart | DocString | ExceptionElement | Json | Markdown | Table
| Text
| Audio | Balloons | BokehChart | DataFrame | DeckGlChart | ImageList
| GraphVizChart | PlotlyChart | VegaLiteChart | Video
| Button | Checkbox | DateInput | Multiselect | Progress | Radio
| Selectbox | Slider | TextArea | TextInput | TimeInput | NumberInput.

Global Instance Component_eq_dec : EqDecision Component.
Proof. solve_decision. Defined.

(** [{ widgetMgr, disabled }], spread into the props of a widget. *)
Record WidgetProps := mkWidgetProps {
  wp_widgetMgr : WidgetStateManager;
  wp_disabled : bool
}.

(** The props a leaf component receives. A prop that the JSX does not
    write, or writes as [undefined], is [None]. *)
Record LeafProps := mkLeafProps {
  leaf_key : option JSValue;
  leaf_element : gmap string JSValue;
  leaf_index : option nat;
  leaf_width : Z;
  leaf_height : option Z;
  leaf_widgetProps : option WidgetProps
}.

(** React elements built by the methods. The child of [Suspense] is the
    value of [{component}], which may be [undefined]. A nested [<Block/>] is
    an element holding its props: React renders it later. *)
Inductive ReactNode :=
| Div (key : nat) (className : string) (style_width : option Z)
      (children : list ReactNode)
| BlockComponent (props : Props)
| ErrorBoundary (width : Z) (child : ReactNode)
| Suspense (fallback : ReactNode) (child : option ReactNode)
| Leaf (component : Component) (props : LeafProps).

(** ** Exceptions and the method monad *)

(** [JsError] is [new Error(message)]; [JsTypeError] is the engine's error
    on reading a property of [null] or [undefined] (its message depends on
    the engine); [CannotDispatch] is the failure of [dispatchOneOf] on a tag
    its table does not handle. *)
Inductive Exn :=
| JsError (message : string)
| JsTypeError
| CannotDispatch (name : string) (whichOne : option string).

Inductive Completion (A : Type) :=
| Normal (a : A)
| Abrupt (e : Exn).
Arguments Normal {A} a.
Arguments Abrupt {A} e.

(** What a method of a mounted [Block] can read or write. *)
Record Store := mkStore {
  this_props : Props;
  FullScreenWrapper_isFullScreen : bool
}.

Definition M (A : Type) : Type := Store -> Completion A * Store.

Definition ret {A} (a : A) : M A := fun s => (Normal a, s).

Definition bind {A B} (m : M A) (k : A -> M B) : M B :=
  fun s =>
    match m s with
    | (Normal a, s') => k a s'
    | (Abrupt e, s') => (Abrupt e, s')
    end.

Definition throw {A} (e : Exn) : M A := fun s => (Abrupt e, s).

Definition read_props : M Props := fun s => (Normal (this_props s), s).

Definition read_isFullScreen : M bool :=
  fun s => (Normal (FullScreenWrapper_isFullScreen s), s).

Notation "'do' x <- c ; k" := (bind c (fun x => k))
  (at level 10, x name, c at level 100, k at level 200,
   format "'[v' 'do'  x  <-  c ; '/' k ']'").

(** The value a method call completes with, and the store it leaves. *)
Definition result_of {A} (m : M A) (s : Store) : Completion A := fst (m s).
Definition store_after {A} (m : M A) (s : Store) : Store := snd (m s).

(** [array.map(callback)] with a callback that may throw: elements are
    visited from index 0 upwards and the first exception ends the loop. *)
Fixpoint array_map_from {A B} (f : A -> nat -> M B) (start : nat)
    (l : list A) : M (list B) :=
  match l with
  | [] => ret []
  | x :: rest =>
      do y <- f x start;
      do ys <- array_map_from f (S start) rest;
      ret (y :: ys)
  end.

Definition array_map {A B} (f : A -> nat -> M B) (l : list A) : M (list B) :=
  array_map_from f 0%nat l.

(** [array.filter(node => node != null)]. *)
Fixpoint filter_non_null {A} (l : list (option A)) : list A :=
  match l with
  | [] => []
  | Some node :: rest => node :: filter_non_null rest
  | None :: rest => filter_non_null rest
  end.

(** ** The methods of [Block] *)

(** [element.get("type")]. On an Immutable [List] a key that is not an
    index is not set, so the result is [undefined]. *)
Definition get_type (element : Element ReportElement) : option string :=
  match element with
  | SimplePayload e => type e
  | BlockPayload _ => None
  end.

(** [x === "empty"] for a tag that may be [undefined]. *)
Definition is_tag (tag : string) (x : option string) : bool :=
  match x with
  | Some t => String.eqb t tag
  | None => false
  end.

(** The local variable [elementsToRender] of [getElements]. The callback of
    [map] closes over it: a computation of [Closure] receives the value the
    variable holds when it runs and hands back the value it leaves. *)
Definition Closure (A : Type) : Type := BlockElement -> A * BlockElement.

(** The callback of [this.props.elements.map] in [getElements]. It reads
    [elementsToRender]; [List.get(index, notSet)] gives the entry at [index],
    or [notSet] out of range. *)
Definition getElements_callback (reportElement : ReportElement) (index : nat)
    : Closure ReportElement :=
  fun elementsToRender =>
    match element reportElement with
    | Some (SimplePayload element) =>
        let isEmpty := is_tag "empty" (type element) in
        (if isEmpty
         then default reportElement (elementsToRender !! index)
         else reportElement,
         elementsToRender)
    | _ => (reportElement, elementsToRender)
    end.

(** [List.map(callback)] of Immutable: the entries are visited from index 0
    upwards, and each call of the callback sees the variable as the calls
    before it left it. *)
Fixpoint List_map_from (callback : ReportElement -> nat -> Closure ReportElement)
    (start : nat) (l : BlockElement) : Closure BlockElement :=
  fun elementsToRender =>
    match l with
    | [] => ([], elementsToRender)
    | reportElement :: rest =>
        let '(mapped, elementsToRender) :=
          callback reportElement start elementsToRender in
        let '(mapped_rest, elementsToRender) :=
          List_map_from callback (S start) rest elementsToRender in
        (mapped :: mapped_rest, elementsToRender)
    end.

(** [getElements]. The variable [elementsToRender] starts as
    [this.props.elements] and is assigned the mapped list once [map] has
    returned. *)
Definition getElements : M BlockElement :=
  do props <- read_props;
  let elementsToRender := elements props in
  if decide (reportRunState props = RUNNING) then
    let '(mapped, elementsToRender) :=
      List_map_from getElements_callback 0 (elements props) elementsToRender in
    let elementsToRender := mapped in
    ret elementsToRender
  else ret elementsToRender.

(** [isElementStale]. *)
Definition isElementStale (reportElement : ReportElement) : M bool :=
  do props <- read_props;
  if decide (reportRunState props = RERUN_REQUESTED) then ret true
  else if decide (reportRunState props = RUNNING) then
    ret (negb (String.eqb (reportId reportElement) (props_reportId props)))
  else ret false.

(** [renderBlock]: a [div] around a nested [<Block/>] element. *)
Definition renderBlock (element : BlockElement) (index : nat) (width : Z)
    : M ReactNode :=
  do props <- read_props;
  ret (Div index "stBlock" (Some width)
         [BlockComponent
            {| elements := element;
               props_reportId := props_reportId props;
               reportRunState := reportRunState props;
               showStaleElementIndicator := showStaleElementIndicator props;
               widgetMgr := widgetMgr props;
               widgetsDisabled := widgetsDisabled props |}]).

(** Modelled from the spec: [makeElementWithInfoText] of [lib/utils] is not
    part of the sources. It builds the alert element shown as a placeholder;
    the text is the body of its [alert] sub-message. *)
Definition makeElementWithInfoText (text : string) : SimpleElement :=
  {| type := Some "alert";
     payload := {[ "body" := JSString text ]} |}.

(** *** The dispatch table of [renderElement] *)

Abbreviation Handler := (gmap string JSValue -> option ReactNode).

(** [<C element={el} width={width} />] *)
Definition jsx_element_width (el : gmap string JSValue) (width : Z)
    : LeafProps :=
  {| leaf_key := None; leaf_element := el; leaf_index := None;
     leaf_width := width; leaf_height := None; leaf_widgetProps := None |}.

(** [<C element={el} index={index} width={width} />] *)
Definition jsx_element_index_width (el : gmap string JSValue) (index : nat)
    (width : Z) : LeafProps :=
  {| leaf_key := None; leaf_element := el; leaf_index := Some index;
     leaf_width := width; leaf_height := None; leaf_widgetProps := None |}.

(** [<C element={el} width={width} height={height} />] *)
Definition jsx_element_width_height (el : gmap string JSValue) (width : Z)
    (height : option Z) : LeafProps :=
  {| leaf_key := None; leaf_element := el; leaf_index := None;
     leaf_width := width; leaf_height := height; leaf_widgetProps := None |}.

(** [<C element={el} width={width} {...widgetProps} />] *)
Definition jsx_widget (el : gmap string JSValue) (width : Z)
    (widgetProps : WidgetProps) : LeafProps :=
  {| leaf_key := None; leaf_element := el; leaf_index := None;
     leaf_width := width; leaf_height := None;
     leaf_widgetProps := Some widgetProps |}.

(** [<C key={el.get("id")} element={el} width={width} {...widgetProps} />] *)
Definition jsx_keyed_widget (el : gmap string JSValue) (width : Z)
    (widgetProps : WidgetProps) : LeafProps :=
  {| leaf_key := el !! "id"; leaf_element := el; leaf_index := None;
     leaf_width := width; leaf_height := None;
     leaf_widgetProps := Some widgetProps |}.

(** The object literal handed to [dispatchOneOf], in source order. *)
Definition dispatchTable (index : nat) (width : Z) (height : option Z)
    (widgetProps : WidgetProps) : list (string * Handler) :=
  [ ("alert", fun el => Some (Leaf Alert (jsx_element_width el width)));
    ("audio", fun el => Some (Leaf Audio (jsx_element_width el width)));
    ("balloons", fun el => Some (Leaf Balloons (jsx_element_width el width)));
    ("bokehChart",
       fun el => Some (Leaf BokehChart (jsx_element_index_width el index width)));
    ("chart", fun el => Some (Leaf Chart (jsx_element_width el width)));
    ("dataFrame",
       fun el => Some (Leaf DataFrame (jsx_element_width_height el width height)));
    ("deckGlChart", fun el => Some (Leaf DeckGlChart (jsx_element_width el width)));
    ("docString", fun el => Some (Leaf DocString (jsx_element_width el width)));
    ("empty", fun _ => None);
    ("exception",
       fun el => Some (Leaf ExceptionElement (jsx_element_width el width)));
    ("graphvizChart",
       fun el => Some (Leaf GraphVizChart (jsx_element_index_width el index width)));
    ("imgs", fun el => Some (Leaf ImageList (jsx_element_width el width)));
    ("json", fun el => Some (Leaf Json (jsx_element_width el width)));
    ("markdown", fun el => Some (Leaf Markdown (jsx_element_width el width)));
    ("multiselect",
       fun el => Some (Leaf Multiselect (jsx_keyed_widget el width widgetProps)));
    ("plotlyChart", fun el => Some (Leaf PlotlyChart (jsx_element_width el width)));
    ("progress", fun el => Some (Leaf Progress (jsx_element_width el width)));
    ("table", fun el => Some (Leaf Table (jsx_element_width el width)));
    ("text", fun el => Some (Leaf Text (jsx_element_width el width)));
    ("vegaLiteChart",
       fun el => Some (Leaf VegaLiteChart (jsx_element_width el width)));
    ("video", fun el => Some (Leaf Video (jsx_element_width el width)));
    ("button", fun el => Some (Leaf Button (jsx_widget el width widgetProps)));
    ("checkbox",
       fun el => Some (Leaf Checkbox (jsx_keyed_widget el width widgetProps)));
    ("dateInput",
       fun el => Some (Leaf DateInput (jsx_keyed_widget el width widgetProps)));
    ("radio", fun el => Some (Leaf Radio (jsx_keyed_widget el width widgetProps)));
    ("selectbox",
       fun el => Some (Leaf Selectbox (jsx_keyed_widget el width widgetProps)));
    ("slider", fun el => Some (Leaf Slider (jsx_keyed_widget el width widgetProps)));
    ("textArea",
       fun el => Some (Leaf TextArea (jsx_keyed_widget el width widgetProps)));
    ("textInput",
       fun el => Some (Leaf TextInput (jsx_keyed_widget el width widgetProps)));
    ("timeInput",
       fun el => Some (Leaf TimeInput (jsx_keyed_widget el width widgetProps)));
    ("numberInput",
       fun el => Some (Leaf NumberInput (jsx_keyed_widget el width widgetProps)))
  ].

(** [funcs[whichOne]] on an object literal. *)
Fixpoint table_lookup {A} (whichOne : string) (funcs : list (string * A))
    : option A :=
  match funcs with
  | [] => None
  | (key, f) :: rest =>
      if String.eqb key whichOne then Some f else table_lookup whichOne rest
  end.

(** The value of the oneof field [name] of an element: only ["type"] is a
    oneof of a simple element. *)
Definition oneof_case (obj : Element ReportElement) (name : string)
    : option string :=
  if String.eqb name "type" then get_type obj else None.

(** The sub-message of an element. *)
Definition oneof_payload (obj : Element ReportElement) : gmap string JSValue :=
  match obj with
  | SimplePayload e => payload e
  | BlockPayload _ => ∅
  end.

(** Modelled from the spec: [dispatchOneOf] of [lib/immutableProto] is not
    part of the sources. The spec describes a flat switch from the type tag
    to a component: the handler stored under the tag is applied to the
    payload of the node. A tag with no handler cannot be dispatched, which
    is reported as a failure of its own kind. *)
Definition dispatchOneOf {A} (obj : Element ReportElement) (name : string)
    (funcs : list (string * (gmap string JSValue -> A))) : M A :=
  match oneof_case obj name with
  | Some whichOne =>
      match table_lookup whichOne funcs with
      | Some f => ret (f (oneof_payload obj))
      | None => throw (CannotDispatch name (Some whichOne))
      end
  | None => throw (CannotDispatch name None)
  end.

(** The local [width] of [renderElement] once the dimension spec of the
    message has been applied. *)
Definition renderElement_width (metadata : option ForwardMsgMetadata)
    (width : Z) : Z :=
  match metadata with
  | Some md =>
      match elementDimensionSpec md with
      | Some spec =>
          if 0 <? spec_width spec then Z.min (spec_width spec) width
          else width
      | None => width
      end
  | None => width
  end.

(** The local [height] of [renderElement]: [undefined] unless the spec
    sets it. *)
Definition renderElement_height (metadata : option ForwardMsgMetadata)
    : option Z :=
  match metadata with
  | Some md =>
      match elementDimensionSpec md with
      | Some spec =>
          if 0 <? spec_height spec then Some (spec_height spec) else None
      | None => None
      end
  | None => None
  end.

(** [renderElement]. *)
Definition renderElement (element : option (Element ReportElement))
    (index : nat) (width : Z) (metadata : option ForwardMsgMetadata)
    : M (option ReactNode) :=
  match element with
  | None => throw (JsError "Transmission error.")
  | Some element =>
      do props <- read_props;
      let widgetProps :=
        {| wp_widgetMgr := widgetMgr props;
           wp_disabled := widgetsDisabled props |} in
      let height := renderElement_height metadata in
      let width := renderElement_width metadata width in
      dispatchOneOf element "type"
        (dispatchTable index width height widgetProps)
  end.

(** The fallback of [Suspense]. *)
Definition loading_fallback (width : Z) : ReactNode :=
  Leaf Alert
    (jsx_element_width (payload (makeElementWithInfoText "Loading...")) width).

(** [renderElementWithErrorBoundary]. Reading [element.get] throws when the
    element is missing. *)
Definition renderElementWithErrorBoundary (reportElement : ReportElement)
    (index : nat) (width : Z) : M (option ReactNode) :=
  match element reportElement with
  | None => throw JsTypeError
  | Some element =>
      if is_tag "empty" (get_type element) then
        ret (Some (Div index "stEmpty" None []))
      else
        do component <-
          renderElement (Some element) index width (metadata reportElement);
        do props <- read_props;
        do isStale <-
          (if showStaleElementIndicator props
           then isElementStale reportElement
           else ret false);
        do notFullScreen <-
          (if isStale
           then do fs <- read_isFullScreen; ret (negb fs)
           else ret false);
        let className :=
          if notFullScreen
          then "element-container stale-element"
          else "element-container" in
        ret (Some
               (Div index className (Some width)
                  [ErrorBoundary width
                     (Suspense (loading_fallback width) component)]))
  end.

(** The callback of [map] in [renderElements]: [element instanceof List]
    chooses the branch. *)
Definition renderElements_callback (width : Z) (reportElement : ReportElement)
    (index : nat) : M (option ReactNode) :=
  match element reportElement with
  | Some (BlockPayload element) =>
      do node <- renderBlock element index width;
      ret (Some node)
  | _ => renderElementWithErrorBoundary reportElement index width
  end.

(** [renderElements]. The Immutable list is turned into an array, mapped
    and filtered; arrays are lists here. *)
Definition renderElements (width : Z) : M (list ReactNode) :=
  do elementsToRender <- getElements;
  do nodes <- array_map (renderElements_callback width) elementsToRender;
  ret (filter_non_null nodes).

(** [render]: [AutoSizer] calls its child function with the width it has
    measured, and the nodes of [renderElements] are its children. *)
Definition render (measured_width : Z) : M (list ReactNode) :=
  renderElements measured_width.

(** ** Vocabulary of the properties *)

(** The keys of the object literal of [renderElement]. *)
Definition dispatchTable_keys : list string :=
  [ "alert"; "audio"; "balloons"; "bokehChart"; "chart"; "dataFrame";
    "deckGlChart"; "docString"; "empty"; "exception"; "graphvizChart";
    "imgs"; "json"; "markdown"; "multiselect"; "plotlyChart"; "progress";
    "table"; "text"; "vegaLiteChart"; "video";
    "button"; "checkbox"; "dateInput"; "radio"; "selectbox"; "slider";
    "textArea"; "textInput"; "timeInput"; "numberInput" ].

(** The tags of widgets. *)
Definition widget_tags : list string :=
  [ "button"; "checkbox"; "dateInput"; "multiselect"; "radio"; "selectbox";
    "slider"; "textArea"; "textInput"; "timeInput"; "numberInput" ].

(** The tags of display elements, as against widgets. *)
Definition element_tags : list string :=
  [ "alert"; "audio"; "balloons"; "bokehChart"; "chart"; "dataFrame";
    "deckGlChart"; "docString"; "empty"; "exception"; "graphvizChart";
    "imgs"; "json"; "markdown"; "plotlyChart"; "progress"; "table"; "text";
    "vegaLiteChart"; "video" ].

(** A tag is supported when the table has a handler for it. *)
Definition supported (tag : string) : bool :=
  existsb (String.eqb tag) dispatchTable_keys.

(** The two shapes of a payload. *)
Definition is_List (payload : option (Element ReportElement)) : bool :=
  match payload with
  | Some (BlockPayload _) => true
  | _ => false
  end.

Definition is_Map (payload : option (Element ReportElement)) : bool :=
  match payload with
  | Some (SimplePayload _) => true
  | _ => false
  end.

(** A node that [renderElements] can render: a block, or a simple element
    that is present and carries a supported tag. *)
Definition renderable (reportElement : ReportElement) : bool :=
  match element reportElement with
  | Some (BlockPayload _) => true
  | Some (SimplePayload e) =>
      match type e with
      | Some tag => supported tag
      | None => false
      end
  | None => false
  end.

(** The dimension spec the message carries, if any: the guard
    [metadata && metadata.elementDimensionSpec]. *)
Definition dimension_spec (metadata : option ForwardMsgMetadata)
    : option ElementDimensionSpec :=
  match metadata with
  | Some md => elementDimensionSpec md
  | None => None
  end.

(** The component of a leaf, if the node is one. *)
Definition component_of (node : option ReactNode) : option Component :=
  match node with
  | Some (Leaf c _) => Some c
  | _ => None
  end.

(** The wrapper that [renderElementWithErrorBoundary] puts around a
    component: an error boundary around a suspension node whose fallback is
    the loading placeholder. *)
Definition boundary_wrapper (width : Z) (component : option ReactNode)
    : ReactNode :=
  ErrorBoundary width (Suspense (loading_fallback width) component).

(** No leaf component occurs in the node outside an error boundary around
    a suspension node whose fallback is the loading placeholder. *)
Fixpoint leaves_wrapped (node : ReactNode) : Prop :=
  match node with
  | Leaf _ _ => False
  | Div _ _ _ children =>
      fold_right (fun child rest => leaves_wrapped child /\ rest) True children
  | BlockComponent _ => True
  | ErrorBoundary width (Suspense fallback _) =>
      fallback = loading_fallback width
  | ErrorBoundary _ child => leaves_wrapped child
  | Suspense fallback child =>
      leaves_wrapped fallback /\
      match child with
      | Some c => leaves_wrapped c
      | None => True
      end
  end.

(** The class of a node that is a [div]. *)
Definition className_of (node : ReactNode) : option string :=
  match node with
  | Div _ className _ _ => Some className
  | _ => None
  end.

Definition has_stale_class (node : ReactNode) : bool :=
  match className_of node with
  | Some c => String.eqb c "element-container stale-element"
  | None => false
  end.

(** The class [renderElementWithErrorBoundary] gives the container [div]
    of an element whose staleness is [isStale]. *)
Definition container_className (s : Store) (isStale : bool) : string :=
  if showStaleElementIndicator (this_props s) && isStale
     && negb (FullScreenWrapper_isFullScreen s)
  then "element-container stale-element"
  else "element-container".

(** ** Mounting: the tree React builds

    React calls [render] on the block and then on every nested [<Block/>]
    of its output. [measure] gives
    the width [AutoSizer] reports inside a [div] of a given width. The
    recursion is bounded by [fuel]; [None] means that the fuel ran out. *)

Inductive Rendered :=
| RenderedElement (node : ReactNode)
| RenderedBlock (key : nat) (width : option Z) (children : list Rendered).

Fixpoint mount_nodes
    (render_block : Props -> option Z -> option (Completion (list Rendered)))
    (nodes : list ReactNode) : option (Completion (list Rendered)) :=
  match nodes with
  | [] => Some (Normal [])
  | node :: rest =>
      let first :=
        match node with
        | Div key _ width [BlockComponent props] =>
            match render_block props width with
            | Some (Normal children) =>
                Some (Normal (RenderedBlock key width children))
            | Some (Abrupt e) => Some (Abrupt e)
            | None => None
            end
        | _ => Some (Normal (RenderedElement node))
        end in
      match first with
      | Some (Normal r) =>
          match mount_nodes render_block rest with
          | Some (Normal rs) => Some (Normal (r :: rs))
          | other => other
          end
      | Some (Abrupt e) => Some (Abrupt e)
      | None => None
      end
  end.

Fixpoint mount (measure : Z -> Z) (fuel : nat) (s : Store) (width : Z)
    : option (Completion (list Rendered)) :=
  match fuel with
  | O => None
  | S fuel' =>
      match result_of (render width) s with
      | Abrupt e => Some (Abrupt e)
      | Normal nodes =>
          mount_nodes
            (fun props w =>
               mount measure fuel'
                 {| this_props := props;
                    FullScreenWrapper_isFullScreen :=
                      FullScreenWrapper_isFullScreen s |}
                 (measure (default width w)))
            nodes
      end
  end.

(** The shape of a tree: leaves and blocks, children in order. *)
Inductive Shape :=
| ShapeLeaf
| ShapeBlock (children : list Shape).

Fixpoint shape_of_element (reportElement : ReportElement) : Shape :=
  match reportElement with
  | mkReportElement (Some (BlockPayload l)) _ _ =>
      ShapeBlock (map shape_of_element l)
  | _ => ShapeLeaf
  end.

Fixpoint shape_of_rendered (r : Rendered) : Shape :=
  match r with
  | RenderedElement _ => ShapeLeaf
  | RenderedBlock _ _ children => ShapeBlock (map shape_of_rendered children)
  end.

(** Every node of the tree is renderable. *)
Fixpoint tree_renderable (reportElement : ReportElement) : bool :=
  match reportElement with
  | mkReportElement (Some (BlockPayload l)) _ _ => forallb tree_renderable l
  | mkReportElement (Some (SimplePayload e)) _ _ =>
      match type e with
      | Some tag => supported tag
      | None => false
      end
  | mkReportElement None _ _ => false
  end.

(** The number of nested blocks. *)
Fixpoint depth (reportElement : ReportElement) : nat :=
  match reportElement with
  | mkReportElement (Some (BlockPayload l)) _ _ =>
      S (list_max (map depth l))
  | _ => O
  end.

(** ** Further vocabulary *)

(** The element is a simple element of type ["empty"]. *)
Definition is_empty_element (reportElement : ReportElement) : bool :=
  match element reportElement with
  | Some (SimplePayload e) => is_tag "empty" (type e)
  | _ => false
  end.

(** The React key of a [div]. *)
Definition key_of (node : ReactNode) : option nat :=
  match node with
  | Div key _ _ _ => Some key
  | _ => None
  end.

(** The components whose JSX spreads [widgetProps]. *)
Definition is_widget (c : Component) : bool :=
  match c with
  | Button | Checkbox | DateInput | Multiselect | Radio | Selectbox
  | Slider | TextArea | TextInput | TimeInput | NumberInput => true
  | _ => false
  end.

(** The components whose JSX sets [key={el.get("id")}]. *)
Definition is_keyed (c : Component) : bool :=
  match c with
  | Checkbox | DateInput | Multiselect | Radio | Selectbox
  | Slider | TextArea | TextInput | TimeInput | NumberInput => true
  | _ => false
  end.

(** The components whose JSX sets [index={index}]. *)
Definition takes_index (c : Component) : bool :=
  match c with
  | BokehChart | GraphVizChart => true
  | _ => false
  end.

(** The components whose JSX sets [height={height}]. *)
Definition takes_height (c : Component) : bool :=
  match c with
  | DataFrame => true
  | _ => false
  end.

(** ** Sample inputs *)

Module Samples.

Definition simple (tag : string) (rid : string) : ReportElement :=
  {| element := Some (SimplePayload
                        {| type := Some tag;
                           payload := {[ "id" := JSString "w1" ]} |});
     reportId := rid;
     metadata := None |}.

Definition empty_element : ReportElement := simple "empty" "r2".
Definition text_element : ReportElement := simple "text" "r1".
Definition checkbox_element : ReportElement := simple "checkbox" "r2".

Definition missing_element : ReportElement :=
  {| element := None; reportId := "r2"; metadata := None |}.

Definition sized (tag : string) (w h : Z) : ReportElement :=
  {| element := Some (SimplePayload {| type := Some tag; payload := ∅ |});
     reportId := "r2";
     metadata :=
       Some {| elementDimensionSpec :=
                 Some {| spec_width := w; spec_height := h |} |} |}.

Definition block (l : BlockElement) : ReportElement :=
  {| element := Some (BlockPayload l); reportId := "r2"; metadata := None |}.

Definition props_of (l : BlockElement) (st : ReportRunState) : Props :=
  {| elements := l;
     props_reportId := "r2";
     reportRunState := st;
     showStaleElementIndicator := true;
     widgetMgr := WidgetStateManagerRef 0;
     widgetsDisabled := false |}.

Definition store_of (l : BlockElement) (st : ReportRunState) : Store :=
  {| this_props := props_of l st; FullScreenWrapper_isFullScreen := false |}.

End Samples.

(** ** Reasoning about the monad *)

(** A computation that leaves the store as it found it. *)
Definition frame {A} (m : M A) : Prop := forall s, store_after m s = s.

Create HintDb frame.

Lemma frame_ret {A} (a : A) : frame (ret a).
Proof. intros s. reflexivity. Qed.

Lemma frame_throw {A} (e : Exn) : frame (@throw A e).
Proof. intros s. reflexivity. Qed.

Lemma frame_read_props : frame read_props.
Proof. intros s. reflexivity. Qed.

Lemma frame_read_isFullScreen : frame read_isFullScreen.
Proof. intros s. reflexivity. Qed.

Lemma frame_bind {A B} (m : M A) (k : A -> M B) :
  frame m -> (forall a, frame (k a)) -> frame (bind m k).
Proof.
  intros Hm Hk s. unfold store_after, bind.
  specialize (Hm s). unfold store_after in Hm.
  destruct (m s) as [[a|e] s']; simpl in *; subst s'.
  - apply Hk.
  - reflexivity.
Qed.

Lemma frame_if {A} (b : bool) (m1 m2 : M A) :
  frame m1 -> frame m2 -> frame (if b then m1 else m2).
Proof. destruct b; auto. Qed.

Lemma frame_decide {A} (P : Prop) `{Decision P} (m1 m2 : M A) :
  frame m1 -> frame m2 -> frame (if decide P then m1 else m2).
Proof. destruct (decide P); auto. Qed.

Lemma frame_array_map_from {A B} (f : A -> nat -> M B) (l : list A) :
  (forall x i, frame (f x i)) -> forall start, frame (array_map_from f start l).
Proof.
  intros Hf. induction l as [|x rest IH]; intros start; simpl.
  - apply frame_ret.
  - apply frame_bind; [apply Hf|]. intros y.
    apply frame_bind; [apply IH|]. intros ys. apply frame_ret.
Qed.

#[export] Hint Resolve frame_ret frame_throw frame_read_props
  frame_read_isFullScreen frame_if frame_decide : frame.
#[export] Hint Extern 2 (frame (bind _ _)) =>
  apply frame_bind; [|intro] : frame.

(** With the store untouched, [bind] is sequencing of completions. *)
Lemma result_of_bind {A B} (m : M A) (k : A -> M B) (s : Store) :
  frame m ->
  result_of (bind m k) s =
  match result_of m s with
  | Normal a => result_of (k a) s
  | Abrupt e => Abrupt e
  end.
Proof.
  intros Hm. specialize (Hm s). unfold result_of, store_after, bind in *.
  destruct (m s) as [[a|e] s']; simpl in *; subst; reflexivity.
Qed.

Lemma frame_run {A} (m : M A) (s : Store) :
  frame m -> m s = (result_of m s, s).
Proof.
  intros Hm. specialize (Hm s). unfold result_of, store_after in *.
  destruct (m s); simpl in *; subst; reflexivity.
Qed.

(** *** The methods leave the store alone *)

Lemma frame_getElements : frame getElements.
Proof.
  unfold getElements. apply frame_bind; [apply frame_read_props|].
  intros props. apply frame_decide; [|apply frame_ret].
  destruct (List_map_from _ _ _ _). apply frame_ret.
Qed.

Lemma frame_isElementStale re : frame (isElementStale re).
Proof. unfold isElementStale. auto 10 with frame. Qed.

Lemma frame_renderBlock l index width : frame (renderBlock l index width).
Proof. unfold renderBlock. auto with frame. Qed.

Lemma frame_dispatchOneOf {A} obj name
    (funcs : list (string * (gmap string JSValue -> A))) :
  frame (dispatchOneOf obj name funcs).
Proof.
  unfold dispatchOneOf.
  destruct (oneof_case obj name) as [whichOne|]; [|apply frame_throw].
  destruct (table_lookup whichOne funcs); auto with frame.
Qed.

Lemma frame_renderElement element index width metadata :
  frame (renderElement element index width metadata).
Proof.
  unfold renderElement. destruct element; [|apply frame_throw].
  apply frame_bind; [apply frame_read_props|]. intros props.
  apply frame_dispatchOneOf.
Qed.

#[export] Hint Resolve frame_getElements frame_isElementStale
  frame_renderBlock frame_dispatchOneOf frame_renderElement : frame.

Lemma frame_renderElementWithErrorBoundary re index width :
  frame (renderElementWithErrorBoundary re index width).
Proof.
  unfold renderElementWithErrorBoundary.
  destruct (element re) as [el|]; [|apply frame_throw].
  destruct (is_tag "empty" (get_type el)); [apply frame_ret|].
  apply frame_bind; [apply frame_renderElement|]. intros component.
  apply frame_bind; [apply frame_read_props|]. intros props.
  apply frame_bind; [auto with frame|]. intros isStale.
  apply frame_bind; [destruct isStale; auto with frame|]. intros nfs.
  apply frame_ret.
Qed.

#[export] Hint Resolve frame_renderElementWithErrorBoundary : frame.

Lemma frame_renderElements width : frame (renderElements width).
Proof.
  unfold renderElements, array_map.
  apply frame_bind; [apply frame_getElements|]. intros l.
  apply frame_bind; [|intros; apply frame_ret].
  apply frame_array_map_from. intros re i. unfold renderElements_callback.
  destruct (element re) as [[b|e]|]; auto with frame.
Qed.

#[export] Hint Resolve frame_renderElements : frame.

(** ** [getElements] *)

Section GetElements.

Variable s : Store.

(** The callback of [getElements] leaves the variable as it is. *)
Lemma getElements_callback_reads reportElement index elementsToRender :
  (getElements_callback reportElement index elementsToRender).2 =
  elementsToRender.
Proof.
  unfold getElements_callback.
  destruct (element reportElement) as [[b|e]|]; reflexivity.
Qed.

(** When the variable holds a list whose entry at [index] is the element at
    hand, the callback returns that element. *)
Lemma getElements_callback_same (elementsToRender : BlockElement) index
    reportElement :
  elementsToRender !! index = Some reportElement ->
  (getElements_callback reportElement index elementsToRender).1 =
  reportElement.
Proof.
  intros Hl. unfold getElements_callback.
  destruct (element reportElement) as [[b|e]|]; try reflexivity.
  simpl. destruct (is_tag "empty" (type e)); [|reflexivity].
  rewrite Hl. reflexivity.
Qed.

(** Mapping the callback over a list while the variable holds a list with
    the same entries at the same indices gives the list back. *)
Lemma getElements_map_same (l : BlockElement) :
  forall start (elementsToRender : BlockElement),
    (forall i reportElement,
       l !! i = Some reportElement ->
       elementsToRender !! (start + i)%nat = Some reportElement) ->
    List_map_from getElements_callback start l elementsToRender =
    (l, elementsToRender).
Proof.
  induction l as [|x rest IH]; intros start v Hv; simpl; [reflexivity|].
  pose proof (getElements_callback_reads x start v) as Hread.
  pose proof (getElements_callback_same v start x) as Hsame.
  destruct (getElements_callback x start v) as [y v1]. simpl in *.
  subst v1. rewrite Hsame.
  - rewrite IH; [reflexivity|].
    intros i re Hre. rewrite Nat.add_succ_l, <- Nat.add_succ_r.
    apply (Hv (S i)), Hre.
  - rewrite <- (Nat.add_0_r start). apply (Hv 0%nat). reflexivity.
Qed.

(** In every run state the list [getElements] returns is the list of the
    props. *)
Lemma getElements_returns_elements :
  result_of getElements s = Normal (elements (this_props s)).
Proof.
  unfold result_of, getElements, bind, read_props, ret; simpl.
  destruct (decide (reportRunState (this_props s) = RUNNING)); simpl.
  - rewrite getElements_map_same; [reflexivity|].
    intros i re Hre. exact Hre.
  - reflexivity.
Qed.

End GetElements.

(** C1, evaluated on the code. A block that rendered a text element at
    index 0 receives, while the report is running, props whose element at
    index 0 is of type ["empty"]: [getElements] returns the empty element,
    not the text element rendered before, and [renderElements] renders the
    empty placeholder. *)
Theorem getElements_running_returns_empty_element :
  let before := Samples.store_of [Samples.text_element] (OTHER_STATE "notRunning") in
  let running :=
    {| this_props := Samples.props_of [Samples.empty_element] RUNNING;
       FullScreenWrapper_isFullScreen :=
         FullScreenWrapper_isFullScreen
           (store_after (renderElements 100) before) |} in
  (exists leaf,
     result_of (renderElements 100) before =
     Normal [Div 0 "element-container" (Some 100)
               [boundary_wrapper 100 (Some (Leaf Text leaf))]]) /\
  result_of getElements running = Normal [Samples.empty_element] /\
  result_of (renderElements 100) running = Normal [Div 0 "stEmpty" None []].
Proof.
  cbv zeta. split; [eexists; vm_compute; reflexivity|].
  split; vm_compute; reflexivity.
Qed.

(** C8. Rendering never modifies the element tree of the props: when the
    run state is not [RUNNING], [getElements] returns [props.elements]
    itself, and after [getElements], [renderElements] and [renderElement]
    the props hold the tree they held before. *)
Theorem rendering_leaves_elements_unchanged (s : Store) :
  (reportRunState (this_props s) <> RUNNING ->
   result_of getElements s = Normal (elements (this_props s))) /\
  elements (this_props (store_after getElements s)) = elements (this_props s) /\
  (forall width,
     elements (this_props (store_after (renderElements width) s)) =
     elements (this_props s)) /\
  (forall element index width metadata,
     elements (this_props
       (store_after (renderElement element index width metadata) s)) =
     elements (this_props s)).
Proof.
  split; [|split; [|split]].
  - intros Hstate. unfold result_of, getElements, bind, read_props, ret; simpl.
    destruct (decide (reportRunState (this_props s) = RUNNING)) as [Hr|_];
      [contradiction|reflexivity].
  - rewrite frame_getElements. reflexivity.
  - intros width. rewrite frame_renderElements. reflexivity.
  - intros element index width metadata. rewrite frame_renderElement.
    reflexivity.
Qed.

Lemma rendering_leaves_elements_unchanged_witness :
  let s := Samples.store_of [Samples.empty_element; Samples.text_element]
             RERUN_REQUESTED in
  result_of getElements s = Normal (elements (this_props s)).
Proof.
  intros s.
  apply (proj1 (rendering_leaves_elements_unchanged s)).
  discriminate.
Defined.

(** ** The dispatch table *)

Lemma table_lookup_In {A} (whichOne : string) (funcs : list (string * A)) f :
  table_lookup whichOne funcs = Some f -> In (whichOne, f) funcs.
Proof.
  induction funcs as [|[key g] rest IH]; simpl; [discriminate|].
  destruct (String.eqb_spec key whichOne) as [->|Hne].
  - intros [= ->]. left. reflexivity.
  - intros H. right. apply IH, H.
Qed.

Lemma table_lookup_keys {A} (whichOne : string) (funcs : list (string * A)) :
  existsb (String.eqb whichOne) (map fst funcs) =
  bool_decide (is_Some (table_lookup whichOne funcs)).
Proof.
  induction funcs as [|[key g] rest IH]; simpl.
  - reflexivity.
  - rewrite (String.eqb_sym whichOne key).
    destruct (String.eqb key whichOne); simpl.
    + reflexivity.
    + exact IH.
Qed.

Lemma dispatchTable_keys_eq index width height widgetProps :
  map fst (dispatchTable index width height widgetProps) = dispatchTable_keys.
Proof. reflexivity. Qed.

Lemma supported_lookup tag index width height widgetProps :
  supported tag = true <->
  is_Some (table_lookup tag (dispatchTable index width height widgetProps)).
Proof.
  unfold supported.
  rewrite <- (dispatchTable_keys_eq index width height widgetProps).
  rewrite table_lookup_keys. apply bool_decide_eq_true.
Qed.

Lemma supported_In tag : supported tag = true -> In tag dispatchTable_keys.
Proof.
  unfold supported. rewrite existsb_exists. intros [key [Hin Heq]].
  apply String.eqb_eq in Heq. subst. exact Hin.
Qed.

(** What a handler of the table hands to its component. *)
Lemma dispatchTable_leaf_props index width height widgetProps :
  Forall
    (fun entry : string * Handler =>
       forall el c lp,
         entry.2 el = Some (Leaf c lp) ->
         leaf_width lp = width /\
         leaf_element lp = el /\
         (leaf_height lp = None \/ leaf_height lp = height))
    (dispatchTable index width height widgetProps).
Proof.
  unfold dispatchTable.
  repeat (apply Forall_cons; split;
          [simpl; intros el c lp H; inversion H; subst; simpl; auto|]).
  apply Forall_nil_2.
Qed.

(** Every handler but the one of ["empty"] returns a leaf. *)
Lemma dispatchTable_leaf index width height widgetProps :
  Forall
    (fun entry : string * Handler =>
       entry.1 <> "empty" ->
       forall el, exists c lp, entry.2 el = Some (Leaf c lp))
    (dispatchTable index width height widgetProps).
Proof.
  unfold dispatchTable.
  repeat (apply Forall_cons; split;
          [simpl; intros Hkey el; first [congruence | eauto]|]).
  apply Forall_nil_2.
Qed.

(** ** [renderElement] *)

Lemma renderElement_present s element index width metadata :
  result_of (renderElement (Some element) index width metadata) s =
  result_of
    (dispatchOneOf element "type"
       (dispatchTable index (renderElement_width metadata width)
          (renderElement_height metadata)
          {| wp_widgetMgr := widgetMgr (this_props s);
             wp_disabled := widgetsDisabled (this_props s) |})) s.
Proof.
  unfold result_of, renderElement, bind, read_props.
  cbv beta iota zeta. reflexivity.
Qed.

Lemma dispatchOneOf_simple {A} s e tag
    (funcs : list (string * (gmap string JSValue -> A))) :
  type e = Some tag ->
  result_of (dispatchOneOf (SimplePayload e) "type" funcs) s =
  match table_lookup tag funcs with
  | Some f => Normal (f (payload e))
  | None => Abrupt (CannotDispatch "type" (Some tag))
  end.
Proof.
  intros Htag. unfold result_of, dispatchOneOf, oneof_case; simpl.
  rewrite Htag. destruct (table_lookup tag funcs); reflexivity.
Qed.

Lemma dispatchOneOf_untagged {A} s obj
    (funcs : list (string * (gmap string JSValue -> A))) :
  get_type obj = None ->
  result_of (dispatchOneOf obj "type" funcs) s =
  Abrupt (CannotDispatch "type" None).
Proof.
  intros Htag. unfold result_of, dispatchOneOf, oneof_case; simpl.
  rewrite Htag. reflexivity.
Qed.

(** A node returned by [renderElement] comes from the handler of the tag. *)
Lemma renderElement_inv s element index width metadata node :
  result_of (renderElement (Some element) index width metadata) s =
    Normal node ->
  exists e tag f,
    element = SimplePayload e /\ type e = Some tag /\
    In (tag, f)
       (dispatchTable index (renderElement_width metadata width)
          (renderElement_height metadata)
          {| wp_widgetMgr := widgetMgr (this_props s);
             wp_disabled := widgetsDisabled (this_props s) |}) /\
    node = f (payload e).
Proof.
  rewrite renderElement_present. intros H.
  destruct (get_type element) as [tag|] eqn:Htag.
  - destruct element as [l|e]; [discriminate|]. simpl in Htag.
    rewrite (dispatchOneOf_simple s e tag _ Htag) in H.
    destruct (table_lookup tag _) as [f|] eqn:Hf; [|discriminate].
    injection H as <-. exists e, tag, f.
    repeat split; auto. apply table_lookup_In, Hf.
  - rewrite dispatchOneOf_untagged in H by exact Htag. discriminate.
Qed.

(** A supported tag other than ["empty"] gives a leaf. *)
Lemma renderElement_supported s e tag index width metadata :
  type e = Some tag -> supported tag = true -> tag <> "empty" ->
  exists c lp,
    result_of (renderElement (Some (SimplePayload e)) index width metadata) s =
    Normal (Some (Leaf c lp)).
Proof.
  intros Htag Hsup Hne. rewrite renderElement_present.
  rewrite (dispatchOneOf_simple s e tag _ Htag).
  apply (supported_lookup tag index (renderElement_width metadata width)
           (renderElement_height metadata)
           {| wp_widgetMgr := widgetMgr (this_props s);
              wp_disabled := widgetsDisabled (this_props s) |}) in Hsup.
  destruct Hsup as [f Hf]. rewrite Hf.
  pose proof (dispatchTable_leaf index (renderElement_width metadata width)
           (renderElement_height metadata)
           {| wp_widgetMgr := widgetMgr (this_props s);
              wp_disabled := widgetsDisabled (this_props s) |}) as Hall.
  rewrite Forall_forall in Hall.
  apply table_lookup_In in Hf. apply list_elem_of_In in Hf.
  destruct (Hall _ Hf Hne (payload e)) as [c [lp Hlp]].
  exists c, lp. simpl in Hlp. rewrite Hlp. reflexivity.
Qed.

(** The handler of ["empty"] returns [undefined]. *)
Lemma renderElement_empty s e index width metadata :
  type e = Some "empty" ->
  result_of (renderElement (Some (SimplePayload e)) index width metadata) s =
  Normal None.
Proof.
  intros Htag. rewrite renderElement_present.
  rewrite (dispatchOneOf_simple s e "empty" _ Htag). reflexivity.
Qed.

(** Under a tag that is not ["empty"], what [renderElement] returns is a
    leaf. *)
Lemma renderElement_not_empty_leaf s element index width metadata node :
  is_tag "empty" (get_type element) = false ->
  result_of (renderElement (Some element) index width metadata) s =
    Normal node ->
  exists c lp, node = Some (Leaf c lp).
Proof.
  intros Hne H. apply renderElement_inv in H.
  destruct H as (e & tag & f & -> & Htag & Hin & ->).
  simpl in Hne. rewrite Htag in Hne. simpl in Hne.
  pose proof (dispatchTable_leaf index (renderElement_width metadata width)
           (renderElement_height metadata)
           {| wp_widgetMgr := widgetMgr (this_props s);
              wp_disabled := widgetsDisabled (this_props s) |}) as Hall.
  rewrite Forall_forall in Hall. apply list_elem_of_In in Hin.
  apply (Hall _ Hin). simpl. intros ->. discriminate.
Qed.

(** ** [isElementStale] and [renderElementWithErrorBoundary] *)

Lemma isElementStale_total s reportElement :
  exists isStale, result_of (isElementStale reportElement) s = Normal isStale.
Proof.
  unfold result_of, isElementStale, bind, read_props, ret; simpl.
  destruct (decide (reportRunState (this_props s) = RERUN_REQUESTED));
    [eauto|].
  destruct (decide (reportRunState (this_props s) = RUNNING)); eauto.
Qed.

Lemma isElementStale_true s reportElement isStale :
  result_of (isElementStale reportElement) s = Normal isStale ->
  (isStale = true <->
   reportRunState (this_props s) = RERUN_REQUESTED \/
   (reportRunState (this_props s) = RUNNING /\
    reportId reportElement <> props_reportId (this_props s))).
Proof.
  unfold result_of, isElementStale, bind, read_props, ret; simpl.
  destruct (decide (reportRunState (this_props s) = RERUN_REQUESTED))
    as [Hrr|Hrr]; simpl.
  - intros [= <-]. split; auto.
  - destruct (decide (reportRunState (this_props s) = RUNNING))
      as [Hr|Hr]; simpl; intros [= <-].
    + rewrite negb_true_iff.
      destruct (String.eqb_spec (reportId reportElement)
                  (props_reportId (this_props s))) as [Heq|Hne].
      * split; [discriminate|]. intros [H|[_ H]]; contradiction.
      * split; auto.
    + split; [discriminate|]. intros [H|[H _]]; contradiction.
Qed.

Lemma renderElementWithErrorBoundary_missing s reportElement index width :
  element reportElement = None ->
  result_of (renderElementWithErrorBoundary reportElement index width) s =
  Abrupt JsTypeError.
Proof.
  intros Hel. unfold result_of, renderElementWithErrorBoundary.
  rewrite Hel. reflexivity.
Qed.

Lemma renderElementWithErrorBoundary_empty s reportElement index width el :
  element reportElement = Some el ->
  is_tag "empty" (get_type el) = true ->
  result_of (renderElementWithErrorBoundary reportElement index width) s =
  Normal (Some (Div index "stEmpty" None [])).
Proof.
  intros Hel Htag. unfold result_of, renderElementWithErrorBoundary.
  rewrite Hel, Htag. reflexivity.
Qed.

Lemma renderElementWithErrorBoundary_not_empty s reportElement index width
    el isStale :
  element reportElement = Some el ->
  is_tag "empty" (get_type el) = false ->
  result_of (isElementStale reportElement) s = Normal isStale ->
  result_of (renderElementWithErrorBoundary reportElement index width) s =
  match result_of
          (renderElement (Some el) index width (metadata reportElement)) s
  with
  | Normal component =>
      Normal (Some (Div index (container_className s isStale) (Some width)
                      [boundary_wrapper width component]))
  | Abrupt e => Abrupt e
  end.
Proof.
  intros Hel Htag Hstale. unfold renderElementWithErrorBoundary.
  rewrite Hel, Htag.
  rewrite result_of_bind by apply frame_renderElement.
  destruct (result_of (renderElement (Some el) index width
                         (metadata reportElement)) s) as [component|e];
    [|reflexivity].
  unfold result_of in *. unfold bind at 1. unfold read_props at 1. simpl.
  unfold bind at 1. unfold container_className.
  destruct (showStaleElementIndicator (this_props s)); simpl.
  - rewrite (frame_run _ s (frame_isElementStale reportElement)).
    unfold result_of. destruct (isElementStale reportElement s) as [r s'].
    simpl in Hstale. subst r. simpl.
    destruct isStale; simpl.
    + unfold bind, read_isFullScreen, ret; simpl.
      destruct (FullScreenWrapper_isFullScreen s); reflexivity.
    + reflexivity.
  - reflexivity.
Qed.

(** Every output of [renderElementWithErrorBoundary] is the empty
    placeholder or a container whose boundary wraps a leaf. *)
Lemma renderElementWithErrorBoundary_shape s re i w node :
  result_of (renderElementWithErrorBoundary re i w) s = Normal node ->
  node = Some (Div i "stEmpty" None []) \/
  exists className c lp,
    node = Some (Div i className (Some w)
                   [boundary_wrapper w (Some (Leaf c lp))]).
Proof.
  intros Hnode. destruct (element re) as [el|] eqn:Hre.
  - destruct (is_tag "empty" (get_type el)) eqn:Hne.
    + rewrite (renderElementWithErrorBoundary_empty s _ _ _ el Hre Hne)
        in Hnode.
      injection Hnode as <-. left. reflexivity.
    + destruct (isElementStale_total s re) as [isStale Hstale].
      rewrite (renderElementWithErrorBoundary_not_empty s _ _ _ el isStale
                 Hre Hne Hstale) in Hnode.
      destruct (result_of (renderElement _ _ _ _) s) as [component|]
        eqn:Hcomp; [|discriminate].
      injection Hnode as <-. right.
      destruct (renderElement_not_empty_leaf s el i w (metadata re)
                  component Hne Hcomp) as (c & lp & ->).
      eauto.
  - rewrite (renderElementWithErrorBoundary_missing s _ _ _ Hre) in Hnode.
    discriminate.
Qed.

(** ** [array.map] with a callback that may throw *)

Section ArrayMap.

Context {A B : Type}.
Variable f : A -> nat -> M B.
Hypothesis frame_f : forall x i, frame (f x i).
Variable s : Store.

Lemma array_map_from_cons start x rest :
  result_of (array_map_from f start (x :: rest)) s =
  match result_of (f x start) s with
  | Normal y =>
      match result_of (array_map_from f (S start) rest) s with
      | Normal ys => Normal (y :: ys)
      | Abrupt e => Abrupt e
      end
  | Abrupt e => Abrupt e
  end.
Proof.
  simpl. rewrite result_of_bind by apply frame_f.
  destruct (result_of (f x start) s) as [y|e]; [|reflexivity].
  rewrite result_of_bind by (apply frame_array_map_from, frame_f).
  destruct (result_of (array_map_from f (S start) rest) s); reflexivity.
Qed.

(** A normal completion has one result per entry, in order. *)
Lemma array_map_from_Normal_inv l : forall start ys,
  result_of (array_map_from f start l) s = Normal ys ->
  length ys = length l /\
  forall i x, l !! i = Some x ->
    exists y, ys !! i = Some y /\
              result_of (f x (start + i)%nat) s = Normal y.
Proof.
  induction l as [|x rest IH]; intros start ys H.
  - injection H as <-. split; [reflexivity|]. intros i x Hx. discriminate.
  - rewrite array_map_from_cons in H.
    destruct (result_of (f x start) s) as [y|e] eqn:Hy; [|discriminate].
    destruct (result_of (array_map_from f (S start) rest) s) as [ys'|e]
      eqn:Hys; [|discriminate].
    injection H as <-. destruct (IH _ _ Hys) as [Hlen Hall].
    split; [simpl; congruence|].
    intros [|i] x' Hx'; simpl in *.
    + injection Hx' as <-. exists y. rewrite Nat.add_0_r. auto.
    + destruct (Hall i x' Hx') as [y' [Hy' Hf]]. exists y'.
      rewrite Nat.add_succ_r. auto.
Qed.

(** It completes normally when the callback does so on every entry. *)
Lemma array_map_from_Normal_intro l : forall start,
  (forall i x, l !! i = Some x ->
     exists y, result_of (f x (start + i)%nat) s = Normal y) ->
  exists ys, result_of (array_map_from f start l) s = Normal ys.
Proof.
  induction l as [|x rest IH]; intros start H.
  - exists []. reflexivity.
  - rewrite array_map_from_cons.
    destruct (H 0%nat x eq_refl) as [y Hy]. rewrite Nat.add_0_r in Hy.
    rewrite Hy.
    destruct (IH (S start)) as [ys Hys].
    + intros i x' Hx'. destruct (H (S i) x' Hx') as [y' Hy'].
      rewrite Nat.add_succ_r in Hy'. eauto.
    + rewrite Hys. eauto.
Qed.

(** An exception of the callback ends the whole loop. *)
Lemma array_map_from_Abrupt l : forall start i x e,
  l !! i = Some x ->
  result_of (f x (start + i)%nat) s = Abrupt e ->
  exists e', result_of (array_map_from f start l) s = Abrupt e'.
Proof.
  induction l as [|x rest IH]; intros start i x' e Hx He; [discriminate|].
  rewrite array_map_from_cons. destruct i as [|i]; simpl in Hx.
  - injection Hx as <-. rewrite Nat.add_0_r in He. rewrite He. eauto.
  - destruct (result_of (f x start) s) as [y|e0]; [|eauto].
    rewrite Nat.add_succ_r in He.
    destruct (IH (S start) i x' e Hx He) as [e' ->]. eauto.
Qed.

End ArrayMap.

(** ** [renderElements] *)

Lemma frame_renderElements_callback width re i :
  frame (renderElements_callback width re i).
Proof.
  unfold renderElements_callback.
  destruct (element re) as [[b|e]|]; auto with frame.
Qed.

Lemma renderElements_callback_block s width re i l :
  element re = Some (BlockPayload l) ->
  result_of (renderElements_callback width re i) s =
  Normal (Some (Div i "stBlock" (Some width)
                  [BlockComponent
                     {| elements := l;
                        props_reportId := props_reportId (this_props s);
                        reportRunState := reportRunState (this_props s);
                        showStaleElementIndicator :=
                          showStaleElementIndicator (this_props s);
                        widgetMgr := widgetMgr (this_props s);
                        widgetsDisabled := widgetsDisabled (this_props s) |}])).
Proof.
  intros Hre. unfold renderElements_callback. rewrite Hre. reflexivity.
Qed.

Lemma renderElements_callback_not_block width re i :
  is_List (element re) = false ->
  renderElements_callback width re i =
  renderElementWithErrorBoundary re i width.
Proof.
  unfold renderElements_callback.
  destruct (element re) as [[b|e]|]; [discriminate|reflexivity|reflexivity].
Qed.

(** The callback never returns [null]: the filter drops nothing. *)
Lemma renderElements_callback_non_null s width re i y :
  result_of (renderElements_callback width re i) s = Normal y ->
  exists node, y = Some node.
Proof.
  destruct (element re) as [[l|e]|] eqn:Hre.
  - rewrite (renderElements_callback_block s width re i l Hre).
    intros [= <-]. eauto.
  - rewrite renderElements_callback_not_block by (rewrite Hre; reflexivity).
    intros H. apply renderElementWithErrorBoundary_shape in H.
    destruct H as [->|(cn & c & lp & ->)]; eauto.
  - rewrite renderElements_callback_not_block by (rewrite Hre; reflexivity).
    rewrite (renderElementWithErrorBoundary_missing s _ _ _ Hre). discriminate.
Qed.

Lemma filter_non_null_lookup {A} (ys : list (option A)) :
  (forall i y, ys !! i = Some y -> exists a, y = Some a) ->
  length (filter_non_null ys) = length ys /\
  forall i y, ys !! i = Some y -> y = filter_non_null ys !! i.
Proof.
  induction ys as [|y ys IH]; intros H.
  - split; [reflexivity|]. intros i y Hy. discriminate.
  - destruct (H 0%nat y eq_refl) as [a ->]. simpl.
    destruct IH as [Hlen Hall].
    + intros i y Hy. apply (H (S i) y Hy).
    + split; [congruence|]. intros [|i] y' Hy; simpl in *.
      * congruence.
      * apply Hall, Hy.
Qed.

Lemma renderElements_result s width :
  result_of (renderElements width) s =
  match result_of
          (array_map (renderElements_callback width) (elements (this_props s)))
          s
  with
  | Normal ys => Normal (filter_non_null ys)
  | Abrupt e => Abrupt e
  end.
Proof.
  unfold renderElements.
  rewrite result_of_bind by apply frame_getElements.
  rewrite getElements_returns_elements.
  rewrite result_of_bind
    by (apply frame_array_map_from, frame_renderElements_callback).
  destruct (result_of (array_map _ _) s); reflexivity.
Qed.

(** What [renderElements] returns has one node per element of the props,
    in the order of the list: the node at an index is the one the callback
    returned for the element at that index. *)
Lemma renderElements_Normal_inv s width nodes :
  result_of (renderElements width) s = Normal nodes ->
  length nodes = length (elements (this_props s)) /\
  forall i re, elements (this_props s) !! i = Some re ->
    result_of (renderElements_callback width re i) s = Normal (nodes !! i).
Proof.
  rewrite renderElements_result.
  destruct (result_of (array_map _ _) s) as [ys|e] eqn:Hys; [|discriminate].
  intros [= <-].
  apply (array_map_from_Normal_inv _ (frame_renderElements_callback width))
    in Hys.
  destruct Hys as [Hlen Hall].
  destruct (filter_non_null_lookup ys) as [Hlen' Hall'].
  - intros i y Hy.
    destruct (lookup_lt_is_Some_2 (elements (this_props s)) i) as [re Hre].
    { rewrite <- Hlen. apply lookup_lt_Some in Hy. exact Hy. }
    destruct (Hall i re Hre) as [y' [Hy' Hf]]. simpl in Hf.
    assert (y' = y) as -> by congruence.
    apply (renderElements_callback_non_null s width re i y Hf).
  - split; [congruence|]. intros i re Hre.
    destruct (Hall i re Hre) as [y [Hy Hf]]. simpl in Hf.
    rewrite Hf. f_equal. apply Hall', Hy.
Qed.

(** [renderElements] returns when the callback returns on every element. *)
Lemma renderElements_Normal_intro s width :
  (forall i re, elements (this_props s) !! i = Some re ->
     exists y, result_of (renderElements_callback width re i) s = Normal y) ->
  exists nodes, result_of (renderElements width) s = Normal nodes.
Proof.
  intros H. rewrite renderElements_result.
  destruct (array_map_from_Normal_intro _
              (frame_renderElements_callback width) s
              (elements (this_props s)) 0%nat) as [ys Hys].
  - intros i re Hre. simpl. apply H, Hre.
  - unfold array_map. rewrite Hys. eauto.
Qed.

(** An exception in the callback ends [renderElements]. *)
Lemma renderElements_Abrupt s width i re e :
  elements (this_props s) !! i = Some re ->
  result_of (renderElements_callback width re i) s = Abrupt e ->
  exists e', result_of (renderElements width) s = Abrupt e'.
Proof.
  intros Hre He. rewrite renderElements_result.
  destruct (array_map_from_Abrupt _ (frame_renderElements_callback width) s
              (elements (this_props s)) 0%nat i re e Hre He) as [e' He'].
  unfold array_map. rewrite He'. eauto.
Qed.

(** ** Staleness *)

(** C9. [isElementStale] returns [true] exactly when the run state is
    [RERUN_REQUESTED], or it is [RUNNING] and the report id of the element
    differs from the one of the props; in every other run state it returns
    [false]. The container of a rendered element carries the stale class
    only when [showStaleElementIndicator] is set and the full-screen flag is
    not. *)
Theorem isElementStale_spec (s : Store) (reportElement : ReportElement) :
  (exists isStale,
     result_of (isElementStale reportElement) s = Normal isStale /\
     (isStale = true <->
      reportRunState (this_props s) = RERUN_REQUESTED \/
      (reportRunState (this_props s) = RUNNING /\
       reportId reportElement <> props_reportId (this_props s))) /\
     (forall name,
        reportRunState (this_props s) = OTHER_STATE name ->
        isStale = false)) /\
  (forall index width node,
     result_of (renderElementWithErrorBoundary reportElement index width) s =
       Normal (Some node) ->
     has_stale_class node = true ->
     showStaleElementIndicator (this_props s) = true /\
     FullScreenWrapper_isFullScreen s = false).
Proof.
  destruct (isElementStale_total s reportElement) as [isStale Hstale].
  pose proof (isElementStale_true s reportElement isStale Hstale) as Hiff.
  split.
  - exists isStale. split; [exact Hstale|]. split; [exact Hiff|].
    intros name Hname. destruct isStale; [|reflexivity].
    destruct (proj1 Hiff eq_refl) as [H|[H _]]; congruence.
  - intros index width node Hnode Hclass.
    destruct (element reportElement) as [el|] eqn:Hel.
    + destruct (is_tag "empty" (get_type el)) eqn:Htag.
      * rewrite (renderElementWithErrorBoundary_empty s _ _ _ el Hel Htag)
          in Hnode.
        injection Hnode as <-. discriminate Hclass.
      * rewrite (renderElementWithErrorBoundary_not_empty s _ _ _ el isStale
                   Hel Htag Hstale) in Hnode.
        destruct (result_of (renderElement _ _ _ _) s); [|discriminate].
        injection Hnode as <-.
        unfold has_stale_class, container_className in Hclass.
        simpl in Hclass.
        destruct (showStaleElementIndicator (this_props s));
          destruct isStale;
          destruct (FullScreenWrapper_isFullScreen s);
          simpl in Hclass; try discriminate Hclass.
        split; reflexivity.
    + rewrite (renderElementWithErrorBoundary_missing s _ _ _ Hel) in Hnode.
      discriminate.
Qed.

Lemma isElementStale_spec_witness :
  showStaleElementIndicator
    (this_props (Samples.store_of [Samples.text_element] RUNNING)) = true /\
  FullScreenWrapper_isFullScreen
    (Samples.store_of [Samples.text_element] RUNNING) = false.
Proof.
  eapply (proj2 (isElementStale_spec
                   (Samples.store_of [Samples.text_element] RUNNING)
                   Samples.text_element) 0%nat 100).
  - vm_compute. reflexivity.
  - vm_compute. reflexivity.
Defined.

(** ** The placeholder of an empty element *)

(** C10. A simple element of type ["empty"] is rendered as the bare [div]
    of class ["stEmpty"]: no error boundary, no suspension node, no stale
    class. The handler of ["empty"] in the table of [renderElement] returns
    [undefined]; [renderElementWithErrorBoundary] reaches [renderElement]
    only with a tag that is not ["empty"], where [renderElement] does not
    return [undefined], so no output of [renderElementWithErrorBoundary]
    wraps [undefined]. *)
Theorem empty_element_placeholder (s : Store) (reportElement : ReportElement)
    (index : nat) (width : Z) (e : SimpleElement) :
  element reportElement = Some (SimplePayload e) ->
  type e = Some "empty" ->
  renderElementWithErrorBoundary reportElement index width s =
    (Normal (Some (Div index "stEmpty" None [])), s) /\
  result_of
    (renderElement (Some (SimplePayload e)) index width
       (metadata reportElement)) s = Normal None /\
  (forall re el i w,
     element re = Some el ->
     is_tag "empty" (get_type el) = false ->
     result_of (renderElement (Some el) i w (metadata re)) s <> Normal None) /\
  (forall re i w node,
     result_of (renderElementWithErrorBoundary re i w) s = Normal node ->
     node = Some (Div i "stEmpty" None []) \/
     exists className c lp,
       node = Some (Div i className (Some w)
                      [boundary_wrapper w (Some (Leaf c lp))])).
Proof.
  intros Hel Htag. split; [|split; [|split]].
  - rewrite (frame_run _ s
               (frame_renderElementWithErrorBoundary reportElement index width)).
    f_equal. apply (renderElementWithErrorBoundary_empty s _ _ _ _ Hel).
    simpl. rewrite Htag. reflexivity.
  - apply renderElement_empty, Htag.
  - intros re el i w Hre Hne Hnone.
    destruct (renderElement_not_empty_leaf s el i w (metadata re) None
                Hne Hnone) as (c & lp & H). discriminate.
  - intros re i w node Hnode.
    apply (renderElementWithErrorBoundary_shape s re i w node Hnode).
Qed.

Lemma empty_element_placeholder_witness :
  renderElementWithErrorBoundary Samples.empty_element 3 100
    (Samples.store_of [Samples.empty_element] RUNNING) =
  (Normal (Some (Div 3 "stEmpty" None [])),
   Samples.store_of [Samples.empty_element] RUNNING).
Proof.
  eapply (proj1 (empty_element_placeholder
                   (Samples.store_of [Samples.empty_element] RUNNING)
                   Samples.empty_element 3%nat 100 _ eq_refl eq_refl)).
Defined.

(** ** Sizing *)

Lemma renderElement_width_le metadata width :
  renderElement_width metadata width <= width.
Proof.
  unfold renderElement_width.
  destruct metadata as [[[spec|]]|]; simpl; try reflexivity.
  destruct (0 <? spec_width spec); [apply Z.le_min_r|reflexivity].
Qed.

Lemma renderElement_width_spec metadata width spec :
  dimension_spec metadata = Some spec ->
  0 < spec_width spec ->
  renderElement_width metadata width = Z.min (spec_width spec) width.
Proof.
  unfold renderElement_width, dimension_spec.
  destruct metadata as [[o]|]; simpl; [|discriminate].
  intros -> Hpos. apply Z.ltb_lt in Hpos. rewrite Hpos. reflexivity.
Qed.

Lemma renderElement_width_container metadata width :
  (forall spec, dimension_spec metadata = Some spec -> spec_width spec <= 0) ->
  renderElement_width metadata width = width.
Proof.
  unfold renderElement_width, dimension_spec.
  destruct metadata as [[[spec|]]|]; simpl; try reflexivity.
  intros H. specialize (H spec eq_refl).
  destruct (Z.ltb_spec 0 (spec_width spec)); [lia|reflexivity].
Qed.

Lemma renderElement_height_Some metadata h :
  renderElement_height metadata = Some h ->
  exists spec,
    dimension_spec metadata = Some spec /\ spec_height spec = h /\ 0 < h.
Proof.
  unfold renderElement_height, dimension_spec.
  destruct metadata as [[[spec|]]|]; simpl; try discriminate.
  destruct (Z.ltb_spec 0 (spec_height spec)); [|discriminate].
  intros [= <-]. eauto.
Qed.

(** C7. The width a leaf renderer receives never exceeds the width of the
    container: with a dimension spec of positive width it is the minimum of
    the spec width and the container width, otherwise it is the container
    width. A height is passed only when the spec height is positive. *)
Theorem leaf_width_bounded (s : Store) (element : Element ReportElement)
    (index : nat) (width : Z) (metadata : option ForwardMsgMetadata)
    (c : Component) (lp : LeafProps) :
  result_of (renderElement (Some element) index width metadata) s =
    Normal (Some (Leaf c lp)) ->
  leaf_width lp <= width /\
  (forall spec,
     dimension_spec metadata = Some spec -> 0 < spec_width spec ->
     leaf_width lp = Z.min (spec_width spec) width) /\
  ((forall spec,
      dimension_spec metadata = Some spec -> spec_width spec <= 0) ->
   leaf_width lp = width) /\
  (forall h,
     leaf_height lp = Some h ->
     exists spec,
       dimension_spec metadata = Some spec /\ spec_height spec = h /\ 0 < h).
Proof.
  intros H. apply renderElement_inv in H.
  destruct H as (e & tag & f & -> & Htag & Hin & Hf).
  pose proof (dispatchTable_leaf_props index
                (renderElement_width metadata width)
                (renderElement_height metadata)
                {| wp_widgetMgr := widgetMgr (this_props s);
                   wp_disabled := widgetsDisabled (this_props s) |}) as Hall.
  rewrite Forall_forall in Hall. apply list_elem_of_In in Hin.
  destruct (Hall _ Hin (payload e) c lp (eq_sym Hf)) as (Hw & _ & Hh).
  rewrite Hw. split; [apply renderElement_width_le|].
  split; [intros spec; apply renderElement_width_spec|].
  split; [apply renderElement_width_container|].
  intros h Hlp. destruct Hh as [Hh|Hh]; [congruence|].
  apply renderElement_height_Some. congruence.
Qed.

Lemma leaf_width_bounded_witness :
  exists lp,
    leaf_width lp <= 100 /\ leaf_width lp = 50 /\ leaf_height lp = Some 20.
Proof.
  eexists.
  pose proof (leaf_width_bounded
                (Samples.store_of [] RUNNING)
                (SimplePayload {| type := Some "dataFrame"; payload := ∅ |})
                0%nat 100
                (Some {| elementDimensionSpec :=
                           Some {| spec_width := 50; spec_height := 20 |} |})
                DataFrame _ eq_refl) as (Hle & Hmin & _ & _).
  split; [exact Hle|]. split; [|reflexivity].
  apply (Hmin {| spec_width := 50; spec_height := 20 |} eq_refl). reflexivity.
Defined.

(** ** The error boundary *)

Lemma is_tag_false tag (x : option string) :
  x <> Some tag -> is_tag tag x = false.
Proof.
  intros H. destruct x as [t|]; [|reflexivity]. simpl.
  destruct (String.eqb_spec t tag); [congruence|reflexivity].
Qed.

Lemma leaves_wrapped_callback s width re i node :
  result_of (renderElements_callback width re i) s = Normal (Some node) ->
  leaves_wrapped node.
Proof.
  destruct (element re) as [[l|e]|] eqn:Hre.
  - rewrite (renderElements_callback_block s width re i l Hre).
    intros [= <-]. simpl. auto.
  - rewrite renderElements_callback_not_block by (rewrite Hre; reflexivity).
    intros H. apply renderElementWithErrorBoundary_shape in H.
    destruct H as [[= ->]|(cn & c & lp & [= ->])]; simpl; auto.
  - rewrite renderElements_callback_not_block by (rewrite Hre; reflexivity).
    rewrite (renderElementWithErrorBoundary_missing s _ _ _ Hre). discriminate.
Qed.

(** C6. The rendered output of a simple element whose type is not
    ["empty"] is a container around an error boundary around a suspension
    node, whose fallback is the ["Loading..."] alert and whose child is the
    leaf component; it is produced whenever the tag is supported. In the
    output of [renderElements] no leaf component occurs outside such a
    wrapper. *)
Theorem element_wrapped_in_boundary (s : Store) (reportElement : ReportElement)
    (index : nat) (width : Z) (e : SimpleElement) :
  element reportElement = Some (SimplePayload e) ->
  type e <> Some "empty" ->
  (forall node,
     result_of (renderElementWithErrorBoundary reportElement index width) s =
       Normal node ->
     exists className c lp,
       result_of
         (renderElement (Some (SimplePayload e)) index width
            (metadata reportElement)) s = Normal (Some (Leaf c lp)) /\
       node =
         Some (Div index className (Some width)
                 [ErrorBoundary width
                    (Suspense
                       (Leaf Alert
                          (jsx_element_width
                             {[ "body" := JSString "Loading..." ]} width))
                       (Some (Leaf c lp)))])) /\
  (forall tag,
     type e = Some tag -> supported tag = true ->
     exists node,
       result_of (renderElementWithErrorBoundary reportElement index width) s =
         Normal (Some node)) /\
  (forall w nodes,
     result_of (renderElements w) s = Normal nodes ->
     Forall leaves_wrapped nodes).
Proof.
  intros Hel Hne. apply (is_tag_false "empty") in Hne.
  destruct (isElementStale_total s reportElement) as [isStale Hstale].
  pose proof (renderElementWithErrorBoundary_not_empty s reportElement index
                width (SimplePayload e) isStale Hel Hne Hstale) as Heq.
  split; [|split].
  - intros node Hnode. rewrite Heq in Hnode.
    destruct (result_of (renderElement _ _ _ _) s) as [component|] eqn:Hcomp;
      [|discriminate].
    injection Hnode as <-.
    destruct (renderElement_not_empty_leaf s (SimplePayload e) index width
                (metadata reportElement) component Hne Hcomp)
      as (c & lp & ->).
    exists (container_className s isStale), c, lp. split; reflexivity.
  - intros tag Htag Hsup.
    destruct (renderElement_supported s e tag index width
                (metadata reportElement) Htag Hsup) as (c & lp & Hc).
    { intros ->. simpl in Hne. rewrite Htag in Hne. discriminate. }
    rewrite Heq, Hc. eauto.
  - intros w nodes Hnodes. apply Forall_forall. intros node Hin.
    apply renderElements_Normal_inv in Hnodes. destruct Hnodes as [Hlen Hall].
    apply list_elem_of_lookup in Hin.
    destruct Hin as [i Hi].
    destruct (lookup_lt_is_Some_2 (elements (this_props s)) i) as [re Hre].
    { rewrite <- Hlen. apply lookup_lt_Some in Hi. exact Hi. }
    specialize (Hall i re Hre). rewrite Hi in Hall.
    apply (leaves_wrapped_callback s w re i node Hall).
Qed.

Lemma element_wrapped_in_boundary_witness :
  exists node,
    result_of
      (renderElementWithErrorBoundary Samples.checkbox_element 2 100)
      (Samples.store_of [Samples.checkbox_element] RUNNING) =
    Normal (Some node).
Proof.
  refine (proj1 (proj2 (element_wrapped_in_boundary
            (Samples.store_of [Samples.checkbox_element] RUNNING)
            Samples.checkbox_element 2%nat 100 _ eq_refl _))
          "checkbox" eq_refl eq_refl).
  discriminate.
Defined.

(** ** Failure of [renderElement] *)

Lemma dispatchOneOf_completion {A} s obj name
    (funcs : list (string * (gmap string JSValue -> A))) :
  (exists a, result_of (dispatchOneOf obj name funcs) s = Normal a) \/
  (exists whichOne,
     result_of (dispatchOneOf obj name funcs) s =
     Abrupt (CannotDispatch name whichOne)).
Proof.
  unfold result_of, dispatchOneOf.
  destruct (oneof_case obj name) as [whichOne|]; [|right; eauto].
  destruct (table_lookup whichOne funcs); [left|right]; eauto.
Qed.

(** C2, as the code has it. [renderElement] raises the error
    ["Transmission error."] exactly when the element it is given is missing.
    For a present simple element with a supported tag other than ["empty"]
    it returns a leaf node without raising, and for the tag ["empty"] it
    returns [undefined] without raising. *)
Theorem renderElement_transmission_error (s : Store)
    (element : option (Element ReportElement)) (index : nat) (width : Z)
    (metadata : option ForwardMsgMetadata) :
  (result_of (renderElement element index width metadata) s =
     Abrupt (JsError "Transmission error.") <-> element = None) /\
  (forall e tag,
     element = Some (SimplePayload e) -> type e = Some tag ->
     supported tag = true -> tag <> "empty" ->
     exists c lp,
       result_of (renderElement element index width metadata) s =
       Normal (Some (Leaf c lp))) /\
  (forall e,
     element = Some (SimplePayload e) -> type e = Some "empty" ->
     result_of (renderElement element index width metadata) s = Normal None).
Proof.
  split; [|split].
  - split.
    + destruct element as [el|]; [|reflexivity].
      rewrite renderElement_present. intros H.
      destruct (dispatchOneOf_completion s el "type"
                  (dispatchTable index (renderElement_width metadata width)
                     (renderElement_height metadata)
                     {| wp_widgetMgr := widgetMgr (this_props s);
                        wp_disabled := widgetsDisabled (this_props s) |}))
        as [[a Ha]|[w Hw]]; congruence.
    + intros ->. reflexivity.
  - intros e tag -> Htag Hsup Hne.
    apply (renderElement_supported s e tag index width metadata Htag Hsup Hne).
  - intros e -> Htag. apply renderElement_empty, Htag.
Qed.

Lemma renderElement_transmission_error_witness :
  exists c lp,
    result_of
      (renderElement (element Samples.text_element) 0 100 None)
      (Samples.store_of [] RUNNING) = Normal (Some (Leaf c lp)).
Proof.
  refine (proj1 (proj2 (renderElement_transmission_error
            (Samples.store_of [] RUNNING) (element Samples.text_element)
            0%nat 100 None)) _ "text" eq_refl eq_refl eq_refl _).
  discriminate.
Defined.

(** C2 as stated fails on the code: ["empty"] is a tag of the table, yet
    [renderElement] returns no node for it; and an element whose payload is
    missing ends the rendering of its siblings as well. *)
Lemma renderElement_no_node_and_no_isolation :
  supported "empty" = true /\
  result_of
    (renderElement
       (Some (SimplePayload {| type := Some "empty"; payload := ∅ |}))
       0 100 None)
    (Samples.store_of [] RUNNING) = Normal None /\
  result_of (renderElements 100)
    (Samples.store_of [Samples.text_element; Samples.missing_element] RUNNING)
  = Abrupt JsTypeError.
Proof. repeat split; vm_compute; reflexivity. Qed.

(** ** Dispatch on the type tag *)

(** C4, as the code has it. [renderElement] dispatches a simple element on
    its type tag through a flat table of 31 tags, the display tags and the
    widget tags: the handler is looked up under the tag alone. Every tag of
    the table other than ["empty"] maps to one leaf component fixed by the
    tag, distinct tags to distinct components; ["empty"] maps to no
    component. *)
Theorem dispatch_by_type_tag :
  (forall index width height widgetProps,
     map fst (dispatchTable index width height widgetProps) =
     dispatchTable_keys) /\
  NoDup dispatchTable_keys /\
  length dispatchTable_keys = 31%nat /\
  (forall tag,
     In tag (element_tags ++ widget_tags) <-> supported tag = true) /\
  (forall s e tag index width metadata,
     type e = Some tag ->
     result_of (renderElement (Some (SimplePayload e)) index width metadata) s =
     match
       table_lookup tag
         (dispatchTable index (renderElement_width metadata width)
            (renderElement_height metadata)
            {| wp_widgetMgr := widgetMgr (this_props s);
               wp_disabled := widgetsDisabled (this_props s) |})
     with
     | Some handler => Normal (handler (payload e))
     | None => Abrupt (CannotDispatch "type" (Some tag))
     end) /\
  (forall tag,
     supported tag = true -> tag <> "empty" ->
     exists c,
       forall s e index width metadata,
         type e = Some tag ->
         exists lp,
           result_of
             (renderElement (Some (SimplePayload e)) index width metadata) s =
           Normal (Some (Leaf c lp))) /\
  (forall s e index width metadata,
     type e = Some "empty" ->
     result_of (renderElement (Some (SimplePayload e)) index width metadata) s =
     Normal None) /\
  NoDup
    (map (fun entry : string * Handler => component_of (entry.2 ∅))
       (dispatchTable 0 0 None
          {| wp_widgetMgr := WidgetStateManagerRef 0; wp_disabled := false |})).
Proof.
  split; [intros; reflexivity|].
  split; [apply (bool_decide_unpack _); vm_compute; reflexivity|].
  split; [reflexivity|].
  split.
  { intros tag. split.
    - intros Hin. unfold supported. apply existsb_exists. exists tag.
      split; [|apply String.eqb_refl].
      simpl in Hin. simpl.
      repeat (destruct Hin as [<-|Hin]; [tauto|]). contradiction.
    - intros Hsup. apply supported_In in Hsup. simpl in Hsup. simpl.
      repeat (destruct Hsup as [<-|Hsup]; [tauto|]). contradiction. }
  split.
  { intros s e tag index width metadata Htag.
    rewrite renderElement_present.
    apply (dispatchOneOf_simple s e tag _ Htag). }
  split.
  { intros tag Hsup Hne. apply supported_In in Hsup. simpl in Hsup.
    repeat (destruct Hsup as [<-|Hsup];
            [first
               [ congruence
               | eexists; intros s e index width metadata Htag; eexists;
                 rewrite renderElement_present;
                 rewrite (dispatchOneOf_simple s e _ _ Htag);
                 reflexivity ]|]).
    contradiction. }
  split.
  { intros s e index width metadata Htag. apply renderElement_empty, Htag. }
  apply (bool_decide_unpack _). vm_compute. reflexivity.
Qed.

Lemma dispatch_by_type_tag_witness :
  exists c,
    forall s e index width metadata,
      type e = Some "slider" ->
      exists lp,
        result_of
          (renderElement (Some (SimplePayload e)) index width metadata) s =
        Normal (Some (Leaf c lp)).
Proof.
  refine (proj1 (proj2 (proj2 (proj2 (proj2 (proj2 dispatch_by_type_tag)))))
            "slider" eq_refl _).
  discriminate.
Defined.

(** C4 as stated fails on the code: the table has the tag ["empty"], and
    what it maps the tag to is no leaf component. *)
Lemma dispatch_empty_has_no_component :
  In "empty" dispatchTable_keys /\
  (forall c lp,
     result_of
       (renderElement
          (Some (SimplePayload {| type := Some "empty"; payload := ∅ |}))
          7 640
          (Some {| elementDimensionSpec :=
                     Some {| spec_width := 320; spec_height := 0 |} |}))
       (Samples.store_of [] (OTHER_STATE "notRunning"))
     <> Normal (Some (Leaf c lp))) /\
  component_of (Some (Div 7 "stEmpty" None [])) = None.
Proof.
  split; [simpl; tauto|]. split; [|reflexivity].
  intros c lp. vm_compute. discriminate.
Qed.

(** ** One node per element, and the mounted tree *)

Lemma renderable_callback s width re i :
  renderable re = true ->
  exists y, result_of (renderElements_callback width re i) s = Normal y.
Proof.
  unfold renderable. intros Hre.
  destruct (element re) as [[l|e]|] eqn:Hel; [| |discriminate].
  - rewrite (renderElements_callback_block s width re i l Hel). eauto.
  - rewrite renderElements_callback_not_block by (rewrite Hel; reflexivity).
    destruct (type e) as [tag|] eqn:Htag; [|discriminate].
    destruct (is_tag "empty" (get_type (SimplePayload e))) eqn:Hempty.
    + rewrite (renderElementWithErrorBoundary_empty s re i width _ Hel Hempty).
      eauto.
    + destruct (isElementStale_total s re) as [isStale Hstale].
      rewrite (renderElementWithErrorBoundary_not_empty s re i width _ isStale
                 Hel Hempty Hstale).
      destruct (renderElement_supported s e tag i width (metadata re)
                  Htag Hre) as (c & lp & ->).
      * intros ->. simpl in Hempty. rewrite Htag in Hempty. discriminate.
      * eauto.
Qed.

Lemma shape_of_element_block re l :
  element re = Some (BlockPayload l) ->
  shape_of_element re = ShapeBlock (map shape_of_element l).
Proof. destruct re as [el rid md]. simpl. intros ->. reflexivity. Qed.

Lemma shape_of_element_not_block re :
  is_List (element re) = false -> shape_of_element re = ShapeLeaf.
Proof.
  destruct re as [[[l|e]|] rid md]; simpl; [discriminate|reflexivity..].
Qed.

Lemma tree_renderable_block re l :
  element re = Some (BlockPayload l) ->
  tree_renderable re = forallb tree_renderable l.
Proof. destruct re as [el rid md]. simpl. intros ->. reflexivity. Qed.

Lemma tree_renderable_renderable re :
  tree_renderable re = true -> renderable re = true.
Proof.
  destruct re as [[[l|e]|] rid md]; unfold renderable; simpl; auto.
Qed.

Lemma depth_block re l :
  element re = Some (BlockPayload l) ->
  depth re = S (list_max (map depth l)).
Proof. destruct re as [el rid md]. simpl. intros ->. reflexivity. Qed.

Lemma list_max_lookup (l : list nat) i n :
  l !! i = Some n -> (n <= list_max l)%nat.
Proof.
  revert i. induction l as [|m l IH]; intros [|i] H; simpl in *;
    try discriminate.
  - injection H as ->. lia.
  - specialize (IH i H). lia.
Qed.

(** The props of the nested [<Block/>] that [renderBlock] builds. *)
Lemma mount_nodes_mirror render_block (elems : BlockElement) :
  forall (nodes : list ReactNode) (P : BlockElement -> Props),
    Forall2
      (fun re node =>
         (exists l key width,
            element re = Some (BlockPayload l) /\
            node = Div key "stBlock" width [BlockComponent (P l)] /\
            exists children,
              render_block (P l) width = Some (Normal children) /\
              map shape_of_rendered children = map shape_of_element l) \/
         (is_List (element re) = false /\
          forall key className width props,
            node <> Div key className width [BlockComponent props]))
      elems nodes ->
    exists rendered,
      mount_nodes render_block nodes = Some (Normal rendered) /\
      map shape_of_rendered rendered = map shape_of_element elems.
Proof.
  intros nodes P H. induction H as [|re node elems nodes Hhead _ IH].
  - exists []. split; reflexivity.
  - destruct IH as (rest & Hrest & Hshape).
    destruct Hhead as [(l & key & width & Hel & -> & children & Hch & Hsh)
                      |[Hnb Hnode]].
    + exists (RenderedBlock key width children :: rest). split.
      * simpl. rewrite Hch, Hrest. reflexivity.
      * rewrite !map_cons, (shape_of_element_block re l Hel).
        simpl. rewrite Hsh, Hshape. reflexivity.
    + exists (RenderedElement node :: rest). split.
      * cbn [mount_nodes]. rewrite Hrest.
        destruct node as [key cn w [|[| | | |] [|]]| | | |];
          try reflexivity.
        exfalso. eapply Hnode. reflexivity.
      * rewrite !map_cons, (shape_of_element_not_block re Hnb), Hshape.
        reflexivity.
Qed.

(** C3, as the code has it. When every simple element of the list has a
    present payload with a supported tag, [renderElements] returns exactly
    one node per element, in the order of the list: the node at an index is
    what the callback returns for the element at that index, and for a block
    child it is a [div] around a nested [<Block/>] over the child's elements
    with the same report id, run state, widget manager and flags. When this
    holds for the whole tree, the mounted tree has the shape of the element
    tree. *)
Theorem renderElements_mirrors_elements (s : Store) (width : Z) :
  forallb renderable (elements (this_props s)) = true ->
  (exists nodes,
     result_of (renderElements width) s = Normal nodes /\
     length nodes = length (elements (this_props s)) /\
     (forall i re,
        elements (this_props s) !! i = Some re ->
        result_of (renderElements_callback width re i) s =
          Normal (nodes !! i)) /\
     (forall i re l,
        elements (this_props s) !! i = Some re ->
        element re = Some (BlockPayload l) ->
        nodes !! i =
        Some (Div i "stBlock" (Some width)
                [BlockComponent
                   {| elements := l;
                      props_reportId := props_reportId (this_props s);
                      reportRunState := reportRunState (this_props s);
                      showStaleElementIndicator :=
                        showStaleElementIndicator (this_props s);
                      widgetMgr := widgetMgr (this_props s);
                      widgetsDisabled := widgetsDisabled (this_props s) |}]))) /\
  (forallb tree_renderable (elements (this_props s)) = true ->
   forall measure fuel,
     (list_max (map depth (elements (this_props s))) < fuel)%nat ->
     exists rendered,
       mount measure fuel s width = Some (Normal rendered) /\
       map shape_of_rendered rendered =
       map shape_of_element (elements (this_props s))).
Proof.
  assert (Hflat : forall s width,
    forallb renderable (elements (this_props s)) = true ->
    exists nodes,
      result_of (renderElements width) s = Normal nodes /\
      length nodes = length (elements (this_props s)) /\
      (forall i re,
         elements (this_props s) !! i = Some re ->
         result_of (renderElements_callback width re i) s =
           Normal (nodes !! i))).
  { clear s width. intros s width Hall.
    destruct (renderElements_Normal_intro s width) as [nodes Hnodes].
    - intros i re Hre. apply renderable_callback.
      rewrite forallb_forall in Hall. apply Hall.
      apply list_elem_of_In. eapply list_elem_of_lookup_2, Hre.
    - exists nodes. split; [exact Hnodes|].
      apply renderElements_Normal_inv, Hnodes. }
  intros Hall. split.
  - destruct (Hflat s width Hall) as (nodes & Hnodes & Hlen & Hcb).
    exists nodes. repeat split; auto.
    intros i re l Hre Hel. specialize (Hcb i re Hre).
    rewrite (renderElements_callback_block s width re i l Hel) in Hcb.
    congruence.
  - clear Hall. intros Htree measure fuel. revert s width Htree.
    induction fuel as [|fuel IH]; intros s width Htree Hdepth; [lia|].
    assert (Hall : forallb renderable (elements (this_props s)) = true).
    { rewrite forallb_forall in *. intros re Hin.
      apply tree_renderable_renderable, Htree, Hin. }
    destruct (Hflat s width Hall) as (nodes & Hnodes & Hlen & Hcb).
    simpl. unfold render. rewrite Hnodes.
    apply (mount_nodes_mirror _ (elements (this_props s)) nodes
             (fun l =>
                {| elements := l;
                   props_reportId := props_reportId (this_props s);
                   reportRunState := reportRunState (this_props s);
                   showStaleElementIndicator :=
                     showStaleElementIndicator (this_props s);
                   widgetMgr := widgetMgr (this_props s);
                   widgetsDisabled := widgetsDisabled (this_props s) |})).
    apply Forall2_same_length_lookup_2; [congruence|].
    intros i re node Hre Hnode. specialize (Hcb i re Hre).
    rewrite Hnode in Hcb.
    destruct (element re) as [[l|e]|] eqn:Hel.
    + left. exists l, i, (Some width).
      rewrite (renderElements_callback_block s width re i l Hel) in Hcb.
      injection Hcb as <-. repeat split; auto.
      destruct (IH
        {| this_props :=
             {| elements := l;
                props_reportId := props_reportId (this_props s);
                reportRunState := reportRunState (this_props s);
                showStaleElementIndicator :=
                  showStaleElementIndicator (this_props s);
                widgetMgr := widgetMgr (this_props s);
                widgetsDisabled := widgetsDisabled (this_props s) |};
           FullScreenWrapper_isFullScreen :=
             FullScreenWrapper_isFullScreen s |}
        (measure width)) as (children & Hm & Hs).
      * simpl. rewrite forallb_forall in Htree.
        rewrite <- (tree_renderable_block re l Hel). apply Htree.
        apply list_elem_of_In. eapply list_elem_of_lookup_2, Hre.
      * simpl.
        assert (depth re <= list_max (map depth (elements (this_props s))))%nat
          as Hle.
        { apply (list_max_lookup _ i). rewrite list_lookup_fmap, Hre.
          reflexivity. }
        rewrite (depth_block re l Hel) in Hle. lia.
      * exists children. split; [exact Hm|exact Hs].
    + right. split; [reflexivity|].
      rewrite renderElements_callback_not_block in Hcb
        by (rewrite Hel; reflexivity).
      apply renderElementWithErrorBoundary_shape in Hcb.
      intros key cn w props ->.
      destruct Hcb as [Hcb|(c0 & c & lp & Hcb)]; discriminate.
    + rewrite renderElements_callback_not_block in Hcb
        by (rewrite Hel; reflexivity).
      rewrite (renderElementWithErrorBoundary_missing s _ _ _ Hel) in Hcb.
      discriminate.
Qed.

Lemma renderElements_mirrors_elements_witness :
  exists rendered,
    mount (fun w => w - 16) 3
      (Samples.store_of
         [Samples.empty_element;
          Samples.block [Samples.text_element;
                         Samples.block [Samples.checkbox_element]];
          Samples.text_element] RUNNING) 800 = Some (Normal rendered) /\
    map shape_of_rendered rendered =
    [ShapeLeaf; ShapeBlock [ShapeLeaf; ShapeBlock [ShapeLeaf]]; ShapeLeaf].
Proof.
  refine (proj2 (renderElements_mirrors_elements
            (Samples.store_of
               [Samples.empty_element;
                Samples.block [Samples.text_element;
                               Samples.block [Samples.checkbox_element]];
                Samples.text_element] RUNNING) 800 eq_refl)
          eq_refl (fun w => w - 16) 3%nat _).
  vm_compute. lia.
Defined.

(** C3 as stated fails on the code: on a list with an element whose payload
    is missing, [renderElements] throws and returns no node at all, for the
    block child before it either. *)
Lemma renderElements_missing_payload_throws :
  result_of (renderElements 100)
    (Samples.store_of
       [Samples.block [Samples.text_element]; Samples.missing_element]
       (OTHER_STATE "notRunning")) = Abrupt JsTypeError /\
  (forall nodes,
     result_of (renderElements 100)
       (Samples.store_of
          [Samples.block [Samples.text_element]; Samples.missing_element]
          (OTHER_STATE "notRunning")) <> Normal nodes).
Proof. split; [vm_compute; reflexivity|]. intros nodes. vm_compute. discriminate. Qed.

(** ** Further properties of [getElements] *)

(** X1. In every run state, [RUNNING] included, [getElements] returns the
    list of the props and leaves the store as it is: the branch for
    [RUNNING] replaces nothing. *)
Theorem getElements_ignores_run_state (s : Store) :
  getElements s = (Normal (elements (this_props s)), s).
Proof.
  rewrite (frame_run _ s frame_getElements).
  rewrite getElements_returns_elements. reflexivity.
Qed.

(** X2. Mapping the callback of [getElements] over a list, whatever list
    the variable [elementsToRender] holds, leaves the variable as it is and
    gives a list of the same length: an entry that is not an empty simple
    element is kept, an empty one is replaced by the entry of the variable at
    the same index, and kept when the variable has no entry there. *)
Theorem getElements_map_spec (l : BlockElement) :
  forall (start : nat) (elementsToRender : BlockElement),
    (List_map_from getElements_callback start l elementsToRender).2 =
      elementsToRender /\
    length (List_map_from getElements_callback start l elementsToRender).1 =
      length l /\
    (forall i reportElement,
       l !! i = Some reportElement ->
       (List_map_from getElements_callback start l elementsToRender).1 !! i =
       Some (if is_empty_element reportElement
             then default reportElement (elementsToRender !! (start + i)%nat)
             else reportElement)).
Proof.
  induction l as [|x rest IH]; intros start v.
  - repeat split. intros i re Hre. discriminate.
  - specialize (IH (S start) v). simpl.
    pose proof (getElements_callback_reads x start v) as Hread.
    assert (Hval : (getElements_callback x start v).1 =
                   if is_empty_element x
                   then default x (v !! start) else x).
    { unfold getElements_callback, is_empty_element.
      destruct (element x) as [[b|e]|]; simpl; try reflexivity;
        try (destruct (is_tag "empty" (type e)); reflexivity). }
    destruct (getElements_callback x start v) as [y v1]. simpl in *.
    subst v1 y.
    destruct (List_map_from getElements_callback (S start) rest v)
      as [ys v2]. simpl in *.
    destruct IH as (Hv & Hlen & Hall).
    split; [exact Hv|]. split; [congruence|].
    intros [|i] re Hre; simpl in *.
    + injection Hre as <-. rewrite Nat.add_0_r. reflexivity.
    + rewrite Nat.add_succ_r. apply Hall, Hre.
Qed.

Lemma getElements_map_spec_witness :
  (List_map_from getElements_callback 0
     [Samples.empty_element; Samples.text_element; Samples.empty_element]
     [Samples.checkbox_element]).1 !! 0%nat =
  Some Samples.checkbox_element.
Proof.
  apply (proj2 (proj2 (getElements_map_spec
           [Samples.empty_element; Samples.text_element; Samples.empty_element]
           0%nat [Samples.checkbox_element])) 0%nat Samples.empty_element).
  reflexivity.
Defined.

(** ** How [renderElements] fails *)

Section ArrayMapFailure.

Context {A B : Type}.
Variable f : A -> nat -> M B.
Hypothesis frame_f : forall x i, frame (f x i).
Variable s : Store.

(** The exception of the loop is the one of the first call that throws. *)
Lemma array_map_from_first_Abrupt l : forall start i x e,
  l !! i = Some x ->
  result_of (f x (start + i)%nat) s = Abrupt e ->
  (forall j x', (j < i)%nat -> l !! j = Some x' ->
     exists y, result_of (f x' (start + j)%nat) s = Normal y) ->
  result_of (array_map_from f start l) s = Abrupt e.
Proof.
  induction l as [|x rest IH]; intros start i x' e Hx He Hbefore;
    [discriminate|].
  rewrite (array_map_from_cons f frame_f). destruct i as [|i]; simpl in Hx.
  - injection Hx as <-. rewrite Nat.add_0_r in He. rewrite He. reflexivity.
  - destruct (Hbefore 0%nat x) as [y Hy]; [lia|reflexivity|].
    rewrite Nat.add_0_r in Hy. rewrite Hy.
    rewrite Nat.add_succ_r in He.
    rewrite (IH (S start) i x' e Hx He); [reflexivity|].
    intros j x'' Hj Hx''. destruct (Hbefore (S j) x'') as [y' Hy'];
      [lia|exact Hx''|].
    rewrite Nat.add_succ_r in Hy'. eauto.
Qed.

(** An exception of the loop is the exception of a call. *)
Lemma array_map_from_Abrupt_inv l : forall start e,
  result_of (array_map_from f start l) s = Abrupt e ->
  exists i x, l !! i = Some x /\
              result_of (f x (start + i)%nat) s = Abrupt e.
Proof.
  induction l as [|x rest IH]; intros start e H; [discriminate|].
  rewrite (array_map_from_cons f frame_f) in H.
  destruct (result_of (f x start) s) as [y|e0] eqn:Hy.
  - destruct (result_of (array_map_from f (S start) rest) s) as [ys|e1]
      eqn:Hys; [discriminate|].
    injection H as ->. destruct (IH _ _ Hys) as (i & x' & Hx' & He).
    exists (S i), x'. rewrite Nat.add_succ_r. auto.
  - injection H as ->. exists 0%nat, x. rewrite Nat.add_0_r. auto.
Qed.

End ArrayMapFailure.

(** X3. When rendering the element at an index throws and every element
    before it renders, [renderElements] throws that exception: the elements
    after it are not looked at, and nothing is returned for the ones before
    it. *)
Theorem renderElements_first_failure (s : Store) (width : Z) (i : nat)
    (reportElement : ReportElement) (e : Exn) :
  elements (this_props s) !! i = Some reportElement ->
  result_of (renderElements_callback width reportElement i) s = Abrupt e ->
  (forall j re, (j < i)%nat -> elements (this_props s) !! j = Some re ->
     exists y, result_of (renderElements_callback width re j) s = Normal y) ->
  result_of (renderElements width) s = Abrupt e.
Proof.
  intros Hre He Hbefore. rewrite renderElements_result. unfold array_map.
  rewrite (array_map_from_first_Abrupt _
             (frame_renderElements_callback width) s
             (elements (this_props s)) 0%nat i reportElement e Hre He).
  - reflexivity.
  - intros j re Hj Hj'. apply (Hbefore j re Hj Hj').
Qed.

Lemma renderElements_first_failure_witness :
  result_of (renderElements 100)
    (Samples.store_of
       [Samples.text_element; Samples.missing_element;
        Samples.simple "unknown" "r2"] RUNNING) = Abrupt JsTypeError.
Proof.
  apply (renderElements_first_failure
           (Samples.store_of
              [Samples.text_element; Samples.missing_element;
               Samples.simple "unknown" "r2"] RUNNING)
           100 1%nat Samples.missing_element JsTypeError).
  - reflexivity.
  - reflexivity.
  - intros [|j] re Hj Hre; [|lia]. injection Hre as <-.
    eexists. vm_compute. reflexivity.
Defined.

(** What makes the callback of [renderElements] return. *)
Lemma renderElements_callback_Normal_renderable s width re i y :
  result_of (renderElements_callback width re i) s = Normal y ->
  renderable re = true.
Proof.
  unfold renderable. destruct (element re) as [[l|e]|] eqn:Hel.
  - reflexivity.
  - rewrite renderElements_callback_not_block by (rewrite Hel; reflexivity).
    destruct (is_tag "empty" (get_type (SimplePayload e))) eqn:Hempty.
    + intros _. simpl in Hempty. destruct (type e) as [tag|]; [|discriminate].
      simpl in Hempty. apply String.eqb_eq in Hempty. subst. reflexivity.
    + destruct (isElementStale_total s re) as [isStale Hstale].
      rewrite (renderElementWithErrorBoundary_not_empty s re i width _ isStale
                 Hel Hempty Hstale).
      rewrite renderElement_present.
      destruct (type e) as [tag|] eqn:Htag.
      * rewrite (dispatchOneOf_simple s e tag _ Htag).
        destruct (table_lookup tag _) as [f|] eqn:Hf; [|discriminate].
        intros _. eapply supported_lookup. rewrite Hf. eauto.
      * rewrite dispatchOneOf_untagged by exact Htag. discriminate.
  - rewrite renderElements_callback_not_block by (rewrite Hel; reflexivity).
    rewrite (renderElementWithErrorBoundary_missing s _ _ _ Hel). discriminate.
Qed.

(** X4. [renderElements] returns nodes exactly when every element of the
    list is a block or a simple element that is present and carries a tag
    of the dispatch table; on every other list it throws. *)
Theorem renderElements_returns_iff_renderable (s : Store) (width : Z) :
  (exists nodes, result_of (renderElements width) s = Normal nodes) <->
  forallb renderable (elements (this_props s)) = true.
Proof.
  split.
  - intros [nodes Hnodes]. apply forallb_forall. intros re Hin.
    apply list_elem_of_In, list_elem_of_lookup in Hin.
    destruct Hin as [i Hi].
    apply renderElements_Normal_inv in Hnodes. destruct Hnodes as [_ Hall].
    apply (renderElements_callback_Normal_renderable s width re i _
             (Hall i re Hi)).
  - intros Hall. apply renderElements_Normal_intro.
    intros i re Hre. apply renderable_callback.
    rewrite forallb_forall in Hall. apply Hall.
    apply list_elem_of_In. eapply list_elem_of_lookup_2, Hre.
Qed.

Lemma renderElements_returns_iff_renderable_witness :
  exists nodes,
    result_of (renderElements 100)
      (Samples.store_of
         [Samples.empty_element; Samples.block [Samples.missing_element]]
         RUNNING) = Normal nodes.
Proof.
  apply (proj2 (renderElements_returns_iff_renderable
                  (Samples.store_of
                     [Samples.empty_element;
                      Samples.block [Samples.missing_element]] RUNNING) 100)).
  reflexivity.
Defined.

(** The exceptions of [renderElementWithErrorBoundary]. *)
Lemma renderElementWithErrorBoundary_Abrupt_inv s re i width e :
  result_of (renderElementWithErrorBoundary re i width) s = Abrupt e ->
  (element re = None /\ e = JsTypeError) \/
  (exists el whichOne,
     element re = Some el /\ e = CannotDispatch "type" whichOne).
Proof.
  destruct (element re) as [el|] eqn:Hel.
  - destruct (is_tag "empty" (get_type el)) eqn:Hempty.
    + rewrite (renderElementWithErrorBoundary_empty s re i width el Hel Hempty).
      discriminate.
    + destruct (isElementStale_total s re) as [isStale Hstale].
      rewrite (renderElementWithErrorBoundary_not_empty s re i width el isStale
                 Hel Hempty Hstale).
      rewrite renderElement_present.
      destruct (dispatchOneOf_completion s el "type"
                  (dispatchTable i (renderElement_width (metadata re) width)
                     (renderElement_height (metadata re))
                     {| wp_widgetMgr := widgetMgr (this_props s);
                        wp_disabled := widgetsDisabled (this_props s) |}))
        as [[a ->]|[w ->]]; [discriminate|].
      intros [= <-]. right. eauto.
  - rewrite (renderElementWithErrorBoundary_missing s _ _ _ Hel).
    intros [= <-]. left. auto.
Qed.

(** X5. The error ["Transmission error."] of [renderElement] never leaves
    [renderElementWithErrorBoundary] or [renderElements]: an element whose
    payload is missing makes them throw the [TypeError] of reading
    [element.get], and every exception of [renderElements] is that
    [TypeError] at a missing payload or a failed dispatch. *)
Theorem transmission_error_unreachable (s : Store) (width : Z) :
  (forall re i,
     element re = None ->
     result_of (renderElementWithErrorBoundary re i width) s =
       Abrupt JsTypeError) /\
  (forall re i,
     result_of (renderElementWithErrorBoundary re i width) s <>
       Abrupt (JsError "Transmission error.")) /\
  (forall e,
     result_of (renderElements width) s = Abrupt e ->
     (e = JsTypeError /\
      exists i re, elements (this_props s) !! i = Some re /\
                   element re = None) \/
     (exists whichOne, e = CannotDispatch "type" whichOne)).
Proof.
  split; [|split].
  - intros re i Hel. apply renderElementWithErrorBoundary_missing, Hel.
  - intros re i H.
    apply renderElementWithErrorBoundary_Abrupt_inv in H.
    destruct H as [[_ H]|(el & w & _ & H)]; discriminate.
  - intros e H. rewrite renderElements_result in H.
    destruct (result_of (array_map _ _) s) as [ys|e'] eqn:Hys; [discriminate|].
    injection H as ->. unfold array_map in Hys.
    apply (array_map_from_Abrupt_inv _
             (frame_renderElements_callback width)) in Hys.
    destruct Hys as (i & re & Hre & He). simpl in He.
    destruct (element re) as [[l|el]|] eqn:Hel.
    + rewrite (renderElements_callback_block s width re i l Hel) in He.
      discriminate.
    + rewrite renderElements_callback_not_block in He
        by (rewrite Hel; reflexivity).
      apply renderElementWithErrorBoundary_Abrupt_inv in He.
      destruct He as [[Hnone _]|(el' & w & _ & ->)]; [congruence|].
      right. eauto.
    + rewrite renderElements_callback_not_block in He
        by (rewrite Hel; reflexivity).
      apply renderElementWithErrorBoundary_Abrupt_inv in He.
      destruct He as [[_ ->]|(el' & w & Hsome & _)]; [|congruence].
      left. split; [reflexivity|]. eauto.
Qed.

Lemma transmission_error_unreachable_witness :
  result_of (renderElementWithErrorBoundary Samples.missing_element 4 100)
    (Samples.store_of [] RUNNING) = Abrupt JsTypeError.
Proof.
  apply (proj1 (transmission_error_unreachable
                  (Samples.store_of [] RUNNING) 100)
           Samples.missing_element 4%nat).
  reflexivity.
Defined.

(** X6. The node that [renderElements] returns at a position is a [div]
    whose React key is that position, so the keys of the siblings are
    pairwise different. *)
Theorem renderElements_keys (s : Store) (width : Z) (nodes : list ReactNode) :
  result_of (renderElements width) s = Normal nodes ->
  (forall i node, nodes !! i = Some node -> key_of node = Some i) /\
  NoDup (map key_of nodes).
Proof.
  intros Hnodes. apply renderElements_Normal_inv in Hnodes.
  destruct Hnodes as [Hlen Hall].
  assert (Hkey : forall i node, nodes !! i = Some node -> key_of node = Some i).
  { intros i node Hi.
    destruct (lookup_lt_is_Some_2 (elements (this_props s)) i) as [re Hre].
    { rewrite <- Hlen. apply lookup_lt_Some in Hi. exact Hi. }
    specialize (Hall i re Hre). rewrite Hi in Hall.
    destruct (element re) as [[l|e]|] eqn:Hel.
    - rewrite (renderElements_callback_block s width re i l Hel) in Hall.
      injection Hall as <-. reflexivity.
    - rewrite renderElements_callback_not_block in Hall
        by (rewrite Hel; reflexivity).
      apply renderElementWithErrorBoundary_shape in Hall.
      destruct Hall as [[= ->]|(cn & c & lp & [= ->])]; reflexivity.
    - rewrite renderElements_callback_not_block in Hall
        by (rewrite Hel; reflexivity).
      rewrite (renderElementWithErrorBoundary_missing s _ _ _ Hel) in Hall.
      discriminate. }
  split; [exact Hkey|].
  apply NoDup_alt. intros i j k Hi Hj.
  rewrite list_lookup_fmap in Hi, Hj.
  destruct (nodes !! i) as [ni|] eqn:Hni; [|discriminate].
  destruct (nodes !! j) as [nj|] eqn:Hnj; [|discriminate].
  simpl in Hi, Hj. rewrite (Hkey i ni Hni) in Hi. rewrite (Hkey j nj Hnj) in Hj.
  congruence.
Qed.

Lemma renderElements_keys_witness :
  NoDup (map key_of
    [Div 0 "stEmpty" None [];
     Div 1 "stBlock" (Some 100)
       [BlockComponent (Samples.props_of [] RUNNING)]]).
Proof.
  apply (renderElements_keys
           (Samples.store_of [Samples.empty_element; Samples.block []] RUNNING)
           100).
  vm_compute. reflexivity.
Defined.

(** ** What the leaves receive *)

(** The JSX of every handler of the table. *)
Lemma dispatchTable_jsx index width height widgetProps :
  Forall
    (fun entry : string * Handler =>
       forall el c lp,
         entry.2 el = Some (Leaf c lp) ->
         leaf_element lp = el /\
         leaf_widgetProps lp =
           (if is_widget c then Some widgetProps else None) /\
         leaf_key lp = (if is_keyed c then el !! "id" else None) /\
         leaf_index lp = (if takes_index c then Some index else None) /\
         leaf_height lp = (if takes_height c then height else None) /\
         leaf_width lp = width /\
         is_widget c = existsb (String.eqb entry.1) widget_tags)
    (dispatchTable index width height widgetProps).
Proof.
  unfold dispatchTable.
  repeat (apply Forall_cons; split;
          [simpl; intros el c lp H; inversion H; subst; simpl;
           repeat split; reflexivity|]).
  apply Forall_nil_2.
Qed.

Lemma renderElement_leaf_jsx s e tag index width metadata c lp :
  type e = Some tag ->
  result_of (renderElement (Some (SimplePayload e)) index width metadata) s =
    Normal (Some (Leaf c lp)) ->
  leaf_element lp = payload e /\
  leaf_widgetProps lp =
    (if is_widget c
     then Some {| wp_widgetMgr := widgetMgr (this_props s);
                  wp_disabled := widgetsDisabled (this_props s) |}
     else None) /\
  leaf_key lp = (if is_keyed c then payload e !! "id" else None) /\
  leaf_index lp = (if takes_index c then Some index else None) /\
  leaf_height lp =
    (if takes_height c then renderElement_height metadata else None) /\
  leaf_width lp = renderElement_width metadata width /\
  is_widget c = existsb (String.eqb tag) widget_tags.
Proof.
  intros Htag H. apply renderElement_inv in H.
  destruct H as (e' & tag' & f & [= <-] & Htag' & Hin & Hf).
  assert (tag' = tag) as -> by congruence.
  pose proof (dispatchTable_jsx index (renderElement_width metadata width)
                (renderElement_height metadata)
                {| wp_widgetMgr := widgetMgr (this_props s);
                   wp_disabled := widgetsDisabled (this_props s) |}) as Hall.
  rewrite Forall_forall in Hall. apply list_elem_of_In in Hin.
  apply (Hall _ Hin (payload e) c lp (eq_sym Hf)).
Qed.

(** X7. A leaf receives the widget manager and the disabled flag of the
    props exactly when its tag is a widget tag; a display element, the
    progress bar included, receives neither. *)
Theorem widgets_receive_widgetProps (s : Store) (e : SimpleElement)
    (tag : string) (index : nat) (width : Z)
    (metadata : option ForwardMsgMetadata) (c : Component) (lp : LeafProps) :
  type e = Some tag ->
  result_of (renderElement (Some (SimplePayload e)) index width metadata) s =
    Normal (Some (Leaf c lp)) ->
  (In tag widget_tags ->
   leaf_widgetProps lp =
     Some {| wp_widgetMgr := widgetMgr (this_props s);
             wp_disabled := widgetsDisabled (this_props s) |}) /\
  (~ In tag widget_tags -> leaf_widgetProps lp = None).
Proof.
  intros Htag H.
  destruct (renderElement_leaf_jsx s e tag index width metadata c lp Htag H)
    as (_ & Hwp & _ & _ & _ & _ & Hw).
  rewrite Hwp, Hw. split.
  - intros Hin.
    assert (existsb (String.eqb tag) widget_tags = true) as ->;
      [|reflexivity].
    apply existsb_exists. exists tag. split; [exact Hin|apply String.eqb_refl].
  - intros Hnin.
    destruct (existsb (String.eqb tag) widget_tags) eqn:Hex; [|reflexivity].
    apply existsb_exists in Hex. destruct Hex as (t & Hin & Heq).
    apply String.eqb_eq in Heq. subst. contradiction.
Qed.

Lemma widgets_receive_widgetProps_witness :
  exists lp,
    leaf_widgetProps lp =
    Some {| wp_widgetMgr := WidgetStateManagerRef 0; wp_disabled := false |}.
Proof.
  eexists.
  refine (proj1 (widgets_receive_widgetProps (Samples.store_of [] RUNNING)
            {| type := Some "button"; payload := ∅ |} "button" 0%nat 100 None
            Button _ eq_refl eq_refl) _).
  simpl. tauto.
Defined.

(** X8. Every widget but the button is keyed by the ["id"] of its
    sub-message, [undefined] when the sub-message has none; the button and
    the display elements get no key. *)
Theorem widgets_keyed_by_id (s : Store) (e : SimpleElement) (tag : string)
    (index : nat) (width : Z) (metadata : option ForwardMsgMetadata)
    (c : Component) (lp : LeafProps) :
  type e = Some tag ->
  result_of (renderElement (Some (SimplePayload e)) index width metadata) s =
    Normal (Some (Leaf c lp)) ->
  (In tag widget_tags -> tag <> "button" -> leaf_key lp = payload e !! "id") /\
  (~ In tag widget_tags \/ tag = "button" -> leaf_key lp = None).
Proof.
  intros Htag H.
  destruct (renderElement_leaf_jsx s e tag index width metadata c lp Htag H)
    as (_ & _ & Hkey & _ & _ & _ & _).
  rewrite Hkey. clear Hkey.
  rewrite renderElement_present in H.
  rewrite (dispatchOneOf_simple s e tag _ Htag) in H.
  split.
  - intros Hin Hne. simpl in Hin.
    repeat (destruct Hin as [<-|Hin];
            [first [congruence
                   | simpl in H; injection H as <- _; reflexivity]|]).
    contradiction.
  - intros Hor.
    destruct (table_lookup tag _) as [f|] eqn:Hf; [|discriminate].
    assert (Hsup : supported tag = true).
    { eapply supported_lookup. rewrite Hf. eauto. }
    apply supported_In in Hsup. simpl in Hsup.
    repeat (destruct Hsup as [<-|Hsup];
            [first [ exfalso; destruct Hor as [Hor|Hor];
                     [apply Hor; simpl; tauto|discriminate]
                   | simpl in Hf; injection Hf as <-;
                     first [discriminate H
                           | injection H as <- _; reflexivity] ]|]).
    contradiction.
Qed.

Lemma widgets_keyed_by_id_witness :
  exists lp, leaf_key lp = Some (JSString "w1").
Proof.
  eexists.
  refine (proj1 (widgets_keyed_by_id (Samples.store_of [] RUNNING)
            {| type := Some "slider";
               payload := {[ "id" := JSString "w1" ]} |}
            "slider" 0%nat 100 None Slider _ eq_refl eq_refl) _ _).
  - simpl. tauto.
  - discriminate.
Defined.

(** X9. A leaf receives the sub-message of its element as it is; the index
    of the element in its block is passed on to the Bokeh and GraphViz
    charts and to no other component. *)
Theorem leaf_element_and_index (s : Store) (e : SimpleElement) (tag : string)
    (index : nat) (width : Z) (metadata : option ForwardMsgMetadata)
    (c : Component) (lp : LeafProps) :
  type e = Some tag ->
  result_of (renderElement (Some (SimplePayload e)) index width metadata) s =
    Normal (Some (Leaf c lp)) ->
  leaf_element lp = payload e /\
  (c = BokehChart \/ c = GraphVizChart -> leaf_index lp = Some index) /\
  (c <> BokehChart -> c <> GraphVizChart -> leaf_index lp = None).
Proof.
  intros Htag H.
  destruct (renderElement_leaf_jsx s e tag index width metadata c lp Htag H)
    as (Hel & _ & _ & Hidx & _ & _ & _).
  split; [exact Hel|]. rewrite Hidx. split.
  - intros [->| ->]; reflexivity.
  - intros Hb Hg. destruct c; try reflexivity; contradiction.
Qed.

Lemma leaf_element_and_index_witness :
  exists lp, leaf_index lp = Some 5%nat.
Proof.
  eexists.
  refine (proj1 (proj2 (leaf_element_and_index (Samples.store_of [] RUNNING)
            {| type := Some "graphvizChart"; payload := ∅ |}
            "graphvizChart" 5%nat 100 None GraphVizChart _ eq_refl eq_refl))
          _).
  right. reflexivity.
Defined.

(** X10. Only the data frame receives a height: the height of the
    dimension spec when the message carries one with a positive height, and
    [undefined] otherwise. Every other component receives no height. *)
Theorem only_dataFrame_receives_height (s : Store) (e : SimpleElement)
    (tag : string) (index : nat) (width : Z)
    (metadata : option ForwardMsgMetadata) (c : Component) (lp : LeafProps) :
  type e = Some tag ->
  result_of (renderElement (Some (SimplePayload e)) index width metadata) s =
    Normal (Some (Leaf c lp)) ->
  (c <> DataFrame -> leaf_height lp = None) /\
  (c = DataFrame ->
   (forall spec,
      dimension_spec metadata = Some spec -> 0 < spec_height spec ->
      leaf_height lp = Some (spec_height spec)) /\
   ((forall spec,
       dimension_spec metadata = Some spec -> spec_height spec <= 0) ->
    leaf_height lp = None)).
Proof.
  intros Htag H.
  destruct (renderElement_leaf_jsx s e tag index width metadata c lp Htag H)
    as (_ & _ & _ & _ & Hh & _ & _).
  rewrite Hh. split.
  - intros Hne. destruct c; try reflexivity. contradiction.
  - intros ->. simpl. unfold renderElement_height, dimension_spec.
    destruct metadata as [[[spec|]]|]; simpl.
    + split.
      * intros spec' [= <-] Hpos. apply Z.ltb_lt in Hpos. rewrite Hpos.
        reflexivity.
      * intros Hall. specialize (Hall spec eq_refl).
        destruct (Z.ltb_spec 0 (spec_height spec)); [lia|reflexivity].
    + split; [intros spec'; discriminate|reflexivity].
    + split; [intros spec'; discriminate|reflexivity].
Qed.

Lemma only_dataFrame_receives_height_witness :
  exists lp, leaf_height lp = None.
Proof.
  eexists.
  refine (proj1 (only_dataFrame_receives_height (Samples.store_of [] RUNNING)
            {| type := Some "table"; payload := ∅ |} "table" 0%nat 100
            (Some {| elementDimensionSpec :=
                       Some {| spec_width := 50; spec_height := 20 |} |})
            Table _ eq_refl eq_refl) _).
  discriminate.
Defined.

(** X11. In a container of positive width every leaf receives a positive
    width, whatever the dimension spec holds, and with a spec of positive
    width the leaf is no wider than the spec. *)
Theorem leaf_width_positive (s : Store) (e : SimpleElement) (tag : string)
    (index : nat) (width : Z) (metadata : option ForwardMsgMetadata)
    (c : Component) (lp : LeafProps) :
  type e = Some tag ->
  result_of (renderElement (Some (SimplePayload e)) index width metadata) s =
    Normal (Some (Leaf c lp)) ->
  (0 < width -> 0 < leaf_width lp) /\
  (forall spec,
     dimension_spec metadata = Some spec -> 0 < spec_width spec ->
     leaf_width lp <= spec_width spec).
Proof.
  intros Htag H.
  destruct (renderElement_leaf_jsx s e tag index width metadata c lp Htag H)
    as (_ & _ & _ & _ & _ & Hw & _).
  rewrite Hw. unfold renderElement_width, dimension_spec.
  destruct metadata as [[[spec|]]|]; simpl.
  - split.
    + intros Hpos. destruct (Z.ltb_spec 0 (spec_width spec)); lia.
    + intros spec' [= <-] Hpos. apply Z.ltb_lt in Hpos. rewrite Hpos. lia.
  - split; [auto|intros spec'; discriminate].
  - split; [auto|intros spec'; discriminate].
Qed.

Lemma leaf_width_positive_witness :
  exists lp, 0 < leaf_width lp.
Proof.
  eexists.
  refine (proj1 (leaf_width_positive (Samples.store_of [] RUNNING)
            {| type := Some "text"; payload := ∅ |} "text" 0%nat 100
            (Some {| elementDimensionSpec :=
                       Some {| spec_width := -5; spec_height := 0 |} |})
            Text _ eq_refl eq_refl) _).
  reflexivity.
Defined.

(** ** Which nodes carry the stale class *)

Lemma isElementStale_value s re :
  result_of (isElementStale re) s =
  Normal
    match reportRunState (this_props s) with
    | RERUN_REQUESTED => true
    | RUNNING =>
        negb (String.eqb (reportId re) (props_reportId (this_props s)))
    | OTHER_STATE _ => false
    end.
Proof.
  unfold result_of, isElementStale, bind, read_props, ret; simpl.
  destruct (reportRunState (this_props s)); reflexivity.
Qed.

Lemma stale_class_formula s re i width node isStale :
  result_of (renderElementWithErrorBoundary re i width) s = Normal (Some node) ->
  result_of (isElementStale re) s = Normal isStale ->
  has_stale_class node =
  negb (is_empty_element re) && showStaleElementIndicator (this_props s)
  && isStale && negb (FullScreenWrapper_isFullScreen s).
Proof.
  intros Hnode Hstale. unfold is_empty_element.
  destruct (element re) as [el|] eqn:Hel.
  - destruct (is_tag "empty" (get_type el)) eqn:Hempty.
    + rewrite (renderElementWithErrorBoundary_empty s re i width el Hel Hempty)
        in Hnode.
      injection Hnode as <-.
      destruct el as [l|e]; [discriminate|]. simpl in Hempty.
      rewrite Hempty. reflexivity.
    + rewrite (renderElementWithErrorBoundary_not_empty s re i width el isStale
                 Hel Hempty Hstale) in Hnode.
      destruct (result_of (renderElement _ _ _ _) s); [|discriminate].
      injection Hnode as <-.
      assert (match el with
              | SimplePayload e => is_tag "empty" (type e)
              | BlockPayload _ => false
              end = false) as ->.
      { destruct el; [reflexivity|exact Hempty]. }
      unfold has_stale_class, container_className. simpl.
      destruct (showStaleElementIndicator (this_props s)), isStale,
        (FullScreenWrapper_isFullScreen s); reflexivity.
  - rewrite (renderElementWithErrorBoundary_missing s _ _ _ Hel) in Hnode.
    discriminate.
Qed.

(** X12. The container of a rendered element carries the stale class
    exactly when the element is not an empty placeholder, the indicator is
    switched on, the element is stale and the full-screen flag is off. *)
Theorem stale_class_iff (s : Store) (reportElement : ReportElement)
    (index : nat) (width : Z) (node : ReactNode) (isStale : bool) :
  result_of (renderElementWithErrorBoundary reportElement index width) s =
    Normal (Some node) ->
  result_of (isElementStale reportElement) s = Normal isStale ->
  (has_stale_class node = true <->
   is_empty_element reportElement = false /\
   showStaleElementIndicator (this_props s) = true /\
   isStale = true /\
   FullScreenWrapper_isFullScreen s = false).
Proof.
  intros Hnode Hstale.
  rewrite (stale_class_formula s reportElement index width node isStale
             Hnode Hstale).
  destruct (is_empty_element reportElement),
    (showStaleElementIndicator (this_props s)), isStale,
    (FullScreenWrapper_isFullScreen s); simpl; intuition discriminate.
Qed.

Lemma stale_class_iff_witness :
  exists node,
    result_of (renderElementWithErrorBoundary Samples.text_element 0 100)
      (Samples.store_of [] RERUN_REQUESTED) = Normal (Some node) /\
    has_stale_class node = true.
Proof.
  eexists. split; [vm_compute; reflexivity|].
  refine (proj2 (stale_class_iff (Samples.store_of [] RERUN_REQUESTED)
            Samples.text_element 0%nat 100 _ true _ _) _).
  - vm_compute. reflexivity.
  - reflexivity.
  - repeat split.
Defined.

(** X13. In the output of [renderElements] the containers of blocks and of
    empty placeholders never carry the stale class. With the indicator on
    and full screen off, every other container carries it after a rerun has
    been requested, carries it while running exactly when the report id of
    its element differs from the one of the props, and in every other run
    state none carries it. *)
Theorem stale_marking_by_run_state (s : Store) (width : Z)
    (nodes : list ReactNode) (i : nat) (reportElement : ReportElement)
    (node : ReactNode) :
  result_of (renderElements width) s = Normal nodes ->
  elements (this_props s) !! i = Some reportElement ->
  nodes !! i = Some node ->
  has_stale_class node =
  is_Map (element reportElement) && negb (is_empty_element reportElement)
  && showStaleElementIndicator (this_props s)
  && negb (FullScreenWrapper_isFullScreen s)
  && match reportRunState (this_props s) with
     | RERUN_REQUESTED => true
     | RUNNING =>
         negb (String.eqb (reportId reportElement)
                 (props_reportId (this_props s)))
     | OTHER_STATE _ => false
     end.
Proof.
  intros Hnodes Hre Hnode. apply renderElements_Normal_inv in Hnodes.
  destruct Hnodes as [_ Hall]. specialize (Hall i reportElement Hre).
  rewrite Hnode in Hall.
  destruct (element reportElement) as [[l|e]|] eqn:Hel.
  - rewrite (renderElements_callback_block s width _ i l Hel) in Hall.
    injection Hall as <-. reflexivity.
  - rewrite renderElements_callback_not_block in Hall
      by (rewrite Hel; reflexivity).
    rewrite (stale_class_formula s reportElement i width node _ Hall
               (isElementStale_value s reportElement)).
    simpl.
    destruct (is_empty_element reportElement),
      (showStaleElementIndicator (this_props s)),
      (FullScreenWrapper_isFullScreen s),
      (reportRunState (this_props s)); simpl; try reflexivity;
      destruct (String.eqb _ _); reflexivity.
  - rewrite renderElements_callback_not_block in Hall
      by (rewrite Hel; reflexivity).
    rewrite (renderElementWithErrorBoundary_missing s _ _ _ Hel) in Hall.
    discriminate.
Qed.

Lemma stale_marking_by_run_state_witness :
  has_stale_class
    (Div 1 "element-container" (Some 100)
       [boundary_wrapper 100
          (Some (Leaf Checkbox
                   (jsx_keyed_widget {[ "id" := JSString "w1" ]} 100
                      {| wp_widgetMgr := WidgetStateManagerRef 0;
                         wp_disabled := false |})))]) = false.
Proof.
  apply (stale_marking_by_run_state
           (Samples.store_of
              [Samples.text_element; Samples.checkbox_element] RUNNING)
           100
           [Div 0 "element-container stale-element" (Some 100)
              [boundary_wrapper 100
                 (Some (Leaf Text
                          (jsx_element_width {[ "id" := JSString "w1" ]}
                             100)))];
            Div 1 "element-container" (Some 100)
              [boundary_wrapper 100
                 (Some (Leaf Checkbox
                          (jsx_keyed_widget {[ "id" := JSString "w1" ]} 100
                             {| wp_widgetMgr := WidgetStateManagerRef 0;
                                wp_disabled := false |})))]]
           1%nat Samples.checkbox_element).
  - vm_compute. reflexivity.
  - reflexivity.
  - reflexivity.
Defined.

(** ** The two branches of [renderElements] *)



